(** * cornflex: the SFTP reader ([src/cornflex/reader.py])

    A shallow embedding of [SFTPReader] and of the properties its
    specification states about it.

    The reader is glue around three libraries (paramiko, polars, chardet).
    Everything the reader itself decides is modelled concretely: the
    credential guard of [connect], the keyword dictionary it builds, the
    order of the teardown calls in [close], the [try]/[finally] of
    [get_files], the connection guard and the [try]/[except] of the three
    fetch methods, the path join with [rstrip('/')], the glob filter and the
    header switch of [get_csv_file].  The libraries are an environment
    [Env]: one oracle per library call, which may answer with a value or
    with an exception; the oracles of the calls that touch the network or
    the file system see the whole history of calls made so far, so any
    sequence of outcomes can be expressed.  Every call is also logged in
    that history, which is what the theorems talk about. *)

From Stdlib Require Import String Ascii List Bool Arith ZArith Lia.
From Stdlib Require Strings.Byte.
Import ListNotations.
Local Open Scope string_scope.
Local Open Scope list_scope.



(* ================================================================== *)
(** * Python values used by the reader *)
(* ================================================================== *)

(** Python [str] is [string]; [bytes] is a list of bytes. *)
Definition bytes := list Byte.byte.

(** Exceptions.  [ValueError] and [RuntimeError] are the two the reader
    raises itself; [TypeError] and [AttributeError] are raised by the
    interpreter on [None]; [LibraryError cls msg] is any [Exception] coming
    out of a library call, [msg] being what [str(e)] gives.  All of them
    derive from [Exception], which is what [except Exception] catches. *)
Inductive exn : Type :=
| ValueError (msg : string)
| RuntimeError (msg : string)
| TypeError (msg : string)
| AttributeError (msg : string)
| LibraryError (cls msg : string).

(** [str(e)]: the message of the exception. *)
Definition str_exn (e : exn) : string :=
  match e with
  | ValueError m | RuntimeError m | TypeError m | AttributeError m => m
  | LibraryError _ m => m
  end.

Inductive result (A : Type) : Type :=
| Ok (a : A)
| Raise (e : exn).
Arguments Ok {A} a.
Arguments Raise {A} e.

(** Truthiness of an [Optional[str]] and of an [Optional[list]]: [None],
    the empty string and the empty list are false. *)
Definition truthy_str (o : option string) : bool :=
  match o with
  | None => false
  | Some s => negb (String.eqb s "")
  end.

Definition truthy_list {A} (o : option (list A)) : bool :=
  match o with
  | None | Some [] => false
  | Some (_ :: _) => true
  end.

(** Library objects are identified by a handle.  An object is true to
    [if], so an [Optional] handle is false exactly when it is [None]. *)
Definition handle := nat.

(** A loaded private key ([paramiko.RSAKey]); only its identity matters. *)
Inductive pkey : Type := RSAKey (id : nat).

(** The values stored in [connect_kwargs]. *)
Inductive pyval : Type :=
| VNone
| VStr (s : string)
| VInt (z : Z)
| VKey (k : pkey).

Definition of_opt_str (o : option string) : pyval :=
  match o with
  | None => VNone
  | Some s => VStr s
  end.

(** A [dict[str, Any]] with Python's behaviour: insertion ordered, an
    assignment to a present key replaces its value in place. *)
Definition dict := list (string * pyval).

Fixpoint dict_set (k : string) (v : pyval) (d : dict) : dict :=
  match d with
  | [] => [(k, v)]
  | (k', v') :: d' =>
      if String.eqb k k' then (k, v) :: d' else (k', v') :: dict_set k v d'
  end.

Fixpoint dict_get (k : string) (d : dict) : option pyval :=
  match d with
  | [] => None
  | (k', v') :: d' => if String.eqb k k' then Some v' else dict_get k d'
  end.

(** [pl.DataFrame], reduced to its column names and its rows of cells. *)
Record DataFrame : Type := mkDataFrame {
  columns : list string;
  rows : list (list string)
}.

(* ================================================================== *)
(** * Strings: [rstrip] and the path join *)
(* ================================================================== *)

(** [s.rstrip('/')]: every trailing ['/'] is removed. *)
Fixpoint rstrip_slash (s : string) : string :=
  match s with
  | EmptyString => EmptyString
  | String c s' =>
      match rstrip_slash s' with
      | EmptyString => if Ascii.eqb c "/" then EmptyString else String c EmptyString
      | r => String c r
      end
  end.

(** [f"{remote_path.rstrip('/')}/{file_name}"] *)
Definition remote_file_path (remote_path file_name : string) : string :=
  rstrip_slash remote_path ++ "/" ++ file_name.

(** The last character of a string, if any. *)
Fixpoint last_char (s : string) : option ascii :=
  match s with
  | EmptyString => None
  | String c EmptyString => Some c
  | String _ s' => last_char s'
  end.

Definition ends_with_slash (s : string) : bool :=
  match last_char s with
  | Some c => Ascii.eqb c "/"
  | None => false
  end.

(** [n] slashes. *)
Fixpoint slashes (n : nat) : string :=
  match n with
  | O => EmptyString
  | S n' => String "/" (slashes n')
  end.

(** The normalisation as the specification words it: exactly one trailing
    ['/'] is removed, if there is one. *)
Fixpoint strip_one_slash (s : string) : string :=
  match s with
  | EmptyString => EmptyString
  | String c EmptyString => if Ascii.eqb c "/" then EmptyString else s
  | String c s' => String c (strip_one_slash s')
  end.

Definition spec_remote_file_path (remote_path file_name : string) : string :=
  strip_one_slash remote_path ++ "/" ++ file_name.

(* ================================================================== *)
(** * Glob matching: [fnmatch.fnmatch] *)
(* ================================================================== *)

(** [fnmatch.fnmatch(name, pat)] of the Python standard library, on a POSIX
    host, where [os.path.normcase] is the identity and the match is
    therefore case-sensitive.  The pattern is scanned as
    [fnmatch.translate] scans it: ['*'] matches any run of characters,
    ['?'] one character, ['[seq]'] one character of [seq], ['[!seq]'] one
    character not in [seq], where [seq] may start with [']'] and holds
    characters and ranges [lo-hi]; a ['['] that is never closed stands for
    itself.  The whole name has to match. *)
Module Glob.

Inductive item : Type :=
| IChar (c : ascii)
| IRange (lo hi : ascii).

Inductive tok : Type :=
| TStar
| TAny
| TLit (c : ascii)
| TSet (negated : bool) (items : list item).

(** The members of a bracket expression: [c-d] is a range whenever a
    hyphen stands between two characters, a first or last hyphen is a
    plain character. *)
Fixpoint items_of (s : list ascii) : list item :=
  match s with
  | [] => []
  | c :: rest =>
      match rest with
      | h :: d :: rest' =>
          if Ascii.eqb h "-" then IRange c d :: items_of rest'
          else IChar c :: items_of rest
      | _ => IChar c :: items_of rest
      end
  end.

(** The characters up to the first [']'], and how many were read, the
    [']'] included. *)
Fixpoint until_close (s : list ascii) : option (list ascii * nat) :=
  match s with
  | [] => None
  | c :: s' =>
      if Ascii.eqb c "]" then Some ([], 1)
      else match until_close s' with
           | None => None
           | Some (b, n) => Some (c :: b, S n)
           end
  end.

(** What follows a ['[']: an optional ['!'], an optional leading [']'],
    then everything up to the closing [']'].  [None] when the bracket is
    never closed. *)
Definition bracket (rest : list ascii) : option (bool * list ascii * nat) :=
  let '(neg, r1, n1) :=
    match rest with
    | c :: r => if Ascii.eqb c "!" then (true, r, 1) else (false, rest, 0)
    | [] => (false, rest, 0)
    end in
  let '(lead, r2, n2) :=
    match r1 with
    | c :: r => if Ascii.eqb c "]" then ([c], r, 1) else ([], r1, 0)
    | [] => ([], r1, 0)
    end in
  match until_close r2 with
  | None => None
  | Some (body, n3) => Some (neg, lead ++ body, n1 + n2 + n3)
  end.

(** The scan of the pattern.  [skip] counts the characters of a bracket
    expression still to be passed over; [star] tells that the last token
    was a ['*'], consecutive stars being merged. *)
Fixpoint translate (star : bool) (skip : nat) (pat : list ascii) : list tok :=
  match pat with
  | [] => []
  | c :: rest =>
      match skip with
      | S k => translate star k rest
      | O =>
          if Ascii.eqb c "*" then
            if star then translate true 0 rest
            else TStar :: translate true 0 rest
          else if Ascii.eqb c "?" then TAny :: translate false 0 rest
          else if Ascii.eqb c "[" then
            match bracket rest with
            | None => TLit c :: translate false 0 rest
            | Some (neg, stuff, n) =>
                TSet neg (items_of stuff) :: translate false n rest
            end
          else TLit c :: translate false 0 rest
      end
  end.

Definition in_item (c : ascii) (i : item) : bool :=
  match i with
  | IChar d => Ascii.eqb c d
  | IRange lo hi =>
      Nat.leb (nat_of_ascii lo) (nat_of_ascii c) && Nat.leb (nat_of_ascii c) (nat_of_ascii hi)
  end.

Definition tok_accepts (t : tok) (c : ascii) : bool :=
  match t with
  | TStar | TAny => true
  | TLit d => Ascii.eqb c d
  | TSet neg items => xorb neg (existsb (in_item c) items)
  end.

(** Does the whole of [s] match the tokens? *)
Fixpoint matches (p : list tok) (s : list ascii) {struct p} : bool :=
  match p with
  | [] => match s with [] => true | _ :: _ => false end
  | TStar :: p' =>
      (fix star (s : list ascii) : bool :=
         matches p' s ||
         match s with
         | [] => false
         | _ :: s' => star s'
         end) s
  | t :: p' =>
      match s with
      | [] => false
      | c :: s' => tok_accepts t c && matches p' s'
      end
  end.

End Glob.

(** [fnmatch.fnmatch(name=f, pat=file_pattern)] *)
Definition fnmatch (name pat : string) : bool :=
  Glob.matches (Glob.translate false 0 (list_ascii_of_string pat))
               (list_ascii_of_string name).

(* ================================================================== *)
(** * The libraries: calls, history, environment *)
(* ================================================================== *)

(** One event per library call the reader makes, and one per line it
    prints.  An object created by a call ([SSHClient()], [open_sftp()],
    [sftp.file(...)]) is named by the position of that call in the
    history. *)
Inductive event : Type :=
| EvSSHClient                                   (* paramiko.SSHClient() *)
| EvSetPolicy (c : handle)                      (* c.set_missing_host_key_policy(AutoAddPolicy()) *)
| EvLoadKey (path : string)                     (* RSAKey.from_private_key_file(path) *)
| EvConnect (c : handle) (kwargs : dict)        (* c.connect with kwargs *)
| EvOpenSftp (c : handle)                       (* c.open_sftp() *)
| EvSftpClose (s : handle)                      (* s.close() on the SFTP client *)
| EvClientClose (c : handle)                    (* c.close() on the SSH client *)
| EvListdir (s : handle) (path : string)        (* s.listdir(path) *)
| EvFile (s : handle) (path mode : string)      (* s.file(path, mode) *)
| EvRead (f : handle)                           (* f.read() *)
| EvFileClose (f : handle)                      (* f.__exit__: f.close() *)
| EvDetect (raw : bytes)                        (* chardet.detect(raw) *)
| EvReadCsv (content : string) (has_header : bool)
            (new_columns : option (list string)) (* pl.read_csv(...) *)
| EvPrint (line : string).                      (* print(line) *)

Definition history := list event.

(** The answers of the libraries.  The calls on the network or on the file
    system answer from the history so far; decoding, detection and CSV
    parsing are functions of their arguments. *)
Record Env : Type := mkEnv {
  from_private_key_file : history -> string -> result pkey;
  ssh_connect : history -> handle -> dict -> result unit;
  open_sftp : history -> handle -> result unit;
  sftp_close : history -> handle -> result unit;
  client_close : history -> handle -> result unit;
  sftp_listdir : history -> handle -> string -> result (list string);
  sftp_file : history -> handle -> string -> string -> result unit;
  file_read : history -> handle -> result bytes;
  file_close : history -> handle -> result unit;
  bytes_decode : string -> bytes -> result string;
  chardet_detect : bytes -> option string;
  read_csv : string -> bool -> option (list string) -> result DataFrame
}.

(* ================================================================== *)
(** * The reader object and the monad of its methods *)
(* ================================================================== *)

(** The dataclass, with the two attributes [__post_init__] adds. *)
Record SFTPReader : Type := mkSFTPReader {
  hostname : string;
  username : string;
  pem_file : option string;
  password : option string;
  port : Z;
  _client : option handle;
  _sftp : option handle
}.

(** [SFTPReader(hostname, username, pem_file, password, port)] followed by
    [__post_init__]. *)
Definition new_reader (hostname username : string)
    (pem_file password : option string) (port : Z) : SFTPReader :=
  mkSFTPReader hostname username pem_file password port None None.

(** A method runs on the object and on the history, and leaves both
    changed also when it raises. *)
Record State : Type := mkState {
  self : SFTPReader;
  hist : history
}.

Definition M (A : Type) : Type := State -> result A * State.

Definition ret {A} (a : A) : M A := fun st => (Ok a, st).

Definition raise {A} (e : exn) : M A := fun st => (Raise e, st).

Definition bind {A B} (m : M A) (k : A -> M B) : M B :=
  fun st =>
    match m st with
    | (Ok a, st') => k a st'
    | (Raise e, st') => (Raise e, st')
    end.

Declare Scope py_scope.
Delimit Scope py_scope with py.
Notation "x <- m ;; k" := (bind m (fun x => k))
  (at level 61, m at next level, right associativity) : py_scope.
Notation "m ;;; k" := (bind m (fun _ => k))
  (at level 61, right associativity) : py_scope.
Local Open Scope py_scope.

(** [try: body  except Exception as e: handler(e)] *)
Definition try_except {A} (body : M A) (handler : exn -> M A) : M A :=
  fun st =>
    match body st with
    | (Ok a, st') => (Ok a, st')
    | (Raise e, st') => handler e st'
    end.

(** [try: body  finally: fin].  [fin] runs on every way out of [body]; an
    exception of [fin] replaces the outcome of [body]. *)
Definition try_finally {A} (body : M A) (fin : M unit) : M A :=
  fun st =>
    match body st with
    | (r, st') =>
        match fin st' with
        | (Ok _, st'') => (r, st'')
        | (Raise e, st'') => (Raise e, st'')
        end
    end.

Definition get_self : M SFTPReader := fun st => (Ok (self st), st).

Definition log (ev : event) (st : State) : State :=
  mkState (self st) (hist st ++ [ev]).

(** A library call: logged, and answered from the history before it. *)
Definition call {A} (ev : event) (answer : history -> result A) : M A :=
  fun st => (answer (hist st), log ev st).

(** A library call that creates an object: the new handle is the position
    of the call in the history. *)
Definition call_new (ev : event) (answer : history -> result unit) : M handle :=
  fun st =>
    match answer (hist st) with
    | Ok _ => (Ok (length (hist st)), log ev st)
    | Raise e => (Raise e, log ev st)
    end.

Definition lift {A} (r : result A) : M A := fun st => (r, st).

Definition print (line : string) : M unit :=
  fun st => (Ok tt, log (EvPrint line) st).

Definition set_client (c : option handle) : M unit :=
  fun st =>
    let s := self st in
    (Ok tt, mkState (mkSFTPReader (hostname s) (username s) (pem_file s)
                       (password s) (port s) c (_sftp s)) (hist st)).

Definition set_sftp (h : option handle) : M unit :=
  fun st =>
    let s := self st in
    (Ok tt, mkState (mkSFTPReader (hostname s) (username s) (pem_file s)
                       (password s) (port s) (_client s) h) (hist st)).

(* ================================================================== *)
(** * The methods of [SFTPReader] *)
(* ================================================================== *)

Section Reader.

Variable env : Env.

Definition missing_credential : exn :=
  ValueError "Either password or pem_file must be provided".

Definition not_connected : exn :=
  RuntimeError "Not connected. Call connect() first.".

(** The dictionary [connect] starts from. *)
Definition base_kwargs (s : SFTPReader) : dict :=
  [("hostname", VStr (hostname s)); ("port", VInt (port s));
   ("username", VStr (username s)); ("timeout", VInt 30)].

(** [if self.pem_file: ... else: ...]: the key is loaded and stored under
    ["pkey"], or the password is stored under ["password"]. *)
Definition auth_kwargs (s : SFTPReader) : M dict :=
  match pem_file s with
  | Some path =>
      if truthy_str (Some path) then
        private_key <- call (EvLoadKey path)
                         (fun h => from_private_key_file env h path) ;;
        ret (dict_set "pkey" (VKey private_key) (base_kwargs s))
      else ret (dict_set "password" (of_opt_str (password s)) (base_kwargs s))
  | None => ret (dict_set "password" (of_opt_str (password s)) (base_kwargs s))
  end.

Definition connect : M unit :=
  s <- get_self ;;
  if negb (truthy_str (password s)) && negb (truthy_str (pem_file s)) then
    raise missing_credential
  else
    c <- call_new EvSSHClient (fun _ => Ok tt) ;;
    set_client (Some c) ;;;
    call (EvSetPolicy c) (fun _ => Ok tt) ;;;
    connect_kwargs <- auth_kwargs s ;;
    call (EvConnect c connect_kwargs)
         (fun h => ssh_connect env h c connect_kwargs) ;;;
    sftp <- call_new (EvOpenSftp c) (fun h => open_sftp env h c) ;;
    set_sftp (Some sftp).

Definition close : M unit :=
  s <- get_self ;;
  match _sftp s with
  | Some h => call (EvSftpClose h) (fun hs => sftp_close env hs h)
  | None => ret tt
  end ;;;
  match _client s with
  | Some c => call (EvClientClose c) (fun hs => client_close env hs c)
  | None => ret tt
  end.

(** The [try] suite of [get_files]. *)
Definition get_files_body (remote_path file_pattern : string) : M (list string) :=
  s <- get_self ;;
  all_files <-
    match _sftp s with
    | Some h => call (EvListdir h remote_path)
                     (fun hs => sftp_listdir env hs h remote_path)
    | None => raise (AttributeError "'NoneType' object has no attribute 'listdir'")
    end ;;
  ret (filter (fun f => fnmatch f file_pattern) all_files).

Definition get_files (remote_path file_pattern : string) : M (list string) :=
  connect ;;;
  try_finally (get_files_body remote_path file_pattern) close.

(** [with sftp.file(path, mode) as file: body(file)].  The file is closed
    on the way out of the body, whatever the way; [__exit__] does not
    swallow the exception of the body. *)
Definition with_file {A} (sftp : handle) (path mode : string)
    (body : handle -> M A) : M A :=
  file <- call_new (EvFile sftp path mode)
                   (fun hs => sftp_file env hs sftp path mode) ;;
  try_finally (body file)
              (call (EvFileClose file) (fun hs => file_close env hs file)).

(** [raw.decode(encoding)]; [None] as the encoding is a [TypeError]. *)
Definition decode (raw : bytes) (encoding : option string) : M string :=
  match encoding with
  | Some enc => lift (bytes_decode env enc raw)
  | None => raise (TypeError "decode() argument 'encoding' must be str, not None")
  end.

Definition diagnostic (file_name : string) (e : exn) : string :=
  "Error getting " ++ file_name ++ ": " ++ str_exn e.

(** The [except Exception as e] suite shared by the three fetch methods. *)
Definition fail_soft {A} (file_name : string) (e : exn) : M (option A) :=
  print (diagnostic file_name e) ;;;
  ret None.

(** The [try] suite of [get_csv_file]. *)
Definition get_csv_file_body (sftp : handle) (file_name remote_path : string)
    (column_names : option (list string)) : M (option DataFrame) :=
  let path := remote_file_path remote_path file_name in
  content <- with_file sftp path "r"
               (fun file =>
                  raw <- call (EvRead file) (fun hs => file_read env hs file) ;;
                  decode raw (Some "utf-8")) ;;
  if truthy_list column_names then
    df <- call (EvReadCsv content false column_names)
               (fun _ => read_csv env content false column_names) ;;
    ret (Some df)
  else
    df <- call (EvReadCsv content true None)
               (fun _ => read_csv env content true None) ;;
    ret (Some df).

Definition get_csv_file (file_name remote_path : string)
    (column_names : option (list string)) : M (option DataFrame) :=
  s <- get_self ;;
  match _sftp s with
  | None => raise not_connected
  | Some sftp =>
      try_except (get_csv_file_body sftp file_name remote_path column_names)
                 (fail_soft file_name)
  end.

(** The [try] suite of [get_xml_file_to_string]. *)
Definition get_xml_file_to_string_body (sftp : handle)
    (file_name remote_path : string) : M (option string) :=
  let path := remote_file_path remote_path file_name in
  content <- with_file sftp path "r"
               (fun file =>
                  raw <- call (EvRead file) (fun hs => file_read env hs file) ;;
                  decode raw (Some "utf-8")) ;;
  ret (Some content).

Definition get_xml_file_to_string (file_name remote_path : string)
    : M (option string) :=
  s <- get_self ;;
  match _sftp s with
  | None => raise not_connected
  | Some sftp =>
      try_except (get_xml_file_to_string_body sftp file_name remote_path)
                 (fail_soft file_name)
  end.

(** The [try] suite of [file_to_string]. *)
Definition file_to_string_body (sftp : handle) (file_name remote_path : string)
    (encoding : option string) : M (option string) :=
  let path := remote_file_path remote_path file_name in
  raw_bytes <- with_file sftp path "rb"
                 (fun file => call (EvRead file) (fun hs => file_read env hs file)) ;;
  encoding <-
    match encoding with
    | None => call (EvDetect raw_bytes) (fun _ => Ok (chardet_detect env raw_bytes))
    | Some enc => ret (Some enc)
    end ;;
  content <- decode raw_bytes encoding ;;
  ret (Some content).

Definition file_to_string (file_name remote_path : string)
    (encoding : option string) : M (option string) :=
  s <- get_self ;;
  match _sftp s with
  | None => raise not_connected
  | Some sftp =>
      try_except (file_to_string_body sftp file_name remote_path encoding)
                 (fail_soft file_name)
  end.

End Reader.

(* ================================================================== *)
(** * A concrete environment, for running the methods *)
(* ================================================================== *)

Module Sim.

(** Fields of a line of delimited text. *)
Fixpoint split_on (sep : ascii) (s : string) : list string :=
  match s with
  | EmptyString => [EmptyString]
  | String c s' =>
      match split_on sep s' with
      | [] => [String c EmptyString]
      | w :: ws =>
          if Ascii.eqb c sep then EmptyString :: w :: ws
          else String c w :: ws
      end
  end.

Definition newline : ascii := ascii_of_nat 10.

(** A stand-in for [pl.read_csv] on well-formed comma separated text,
    after the contract the reader relies on: with a header the first
    line names the columns, without one the supplied names do and every
    line is a row. *)
Definition read_csv (content : string) (has_header : bool)
    (new_columns : option (list string)) : result DataFrame :=
  let lines := map (split_on ",") (split_on newline content) in
  if has_header then
    match lines with
    | header :: data => Ok (mkDataFrame header data)
    | [] => Raise (LibraryError "NoDataError" "empty CSV")
    end
  else
    match new_columns with
    | Some names => Ok (mkDataFrame names lines)
    | None => Ok (mkDataFrame [] lines)
    end.

Definition is_sftp_close (h : handle) (ev : event) : bool :=
  match ev with
  | EvSftpClose h' => Nat.eqb h h'
  | _ => false
  end.

(** A server that lists [listing] in every directory and serves
    [content] for every file; the single-byte codecs decode byte for
    byte.  The remaining fields say how the fallible calls answer.  A
    file cannot be opened over an SFTP client that has been closed. *)
Record server : Type := mkServer {
  listing : result (list string);
  content : result bytes;
  on_connect : result unit;
  on_open_sftp : result unit;
  on_sftp_close : result unit;
  on_client_close : result unit;
  on_file : result unit
}.

Definition env_of (sv : server) : Env :=
  mkEnv
    (fun hs _ => Ok (RSAKey (length hs)))
    (fun _ _ _ => on_connect sv)
    (fun _ _ => on_open_sftp sv)
    (fun _ _ => on_sftp_close sv)
    (fun _ _ => on_client_close sv)
    (fun _ _ _ => listing sv)
    (fun hs h _ _ =>
       if existsb (is_sftp_close h) hs
       then Raise (LibraryError "OSError" "Socket is closed")
       else on_file sv)
    (fun _ _ => content sv)
    (fun _ _ => Ok tt)
    (fun _ raw => Ok (string_of_list_byte raw))
    (fun _ => Some "ascii")
    read_csv.

Definition healthy (names : list string) (text : string) : server :=
  mkServer (Ok names) (Ok (list_byte_of_string text))
           (Ok tt) (Ok tt) (Ok tt) (Ok tt) (Ok tt).

Definition boom : exn := LibraryError "Exception" "boom".

(** The fixtures of the test suite. *)
Definition reader_password : State :=
  mkState (new_reader "host" "user" None (Some "pass") 22) [].

Definition reader_pem : State :=
  mkState (new_reader "host" "user" (Some "/path/to/key.pem") None 22) [].

Definition connected_reader : State :=
  mkState (mkSFTPReader "host" "user" None (Some "pass") 22 None (Some 0)) [].

(** Servers on which one call fails. *)
Definition no_sftp_subsystem : server :=
  mkServer (Ok []) (Ok []) (Ok tt) (Raise boom) (Ok tt) (Ok tt) (Ok tt).

Definition listing_fails : server :=
  mkServer (Raise boom) (Ok []) (Ok tt) (Ok tt) (Ok tt) (Ok tt) (Ok tt).

Definition sftp_close_fails : server :=
  mkServer (Ok []) (Ok []) (Ok tt) (Ok tt) (Raise boom) (Ok tt) (Ok tt).


(** A reader whose key file is the empty string, with a password. *)
Definition reader_empty_pem : State :=
  mkState (new_reader "host" "user" (Some "") (Some "pass") 22) [].

(** A reader with a key file and a password. *)
Definition reader_both : State :=
  mkState (new_reader "host" "user" (Some "/path/to/key.pem") (Some "pass") 22) [].

(** A reader without credentials. *)
Definition reader_bare : State :=
  mkState (new_reader "host" "user" None None 22) [].

(** A reader holding both handles, as after [connect]. *)
Definition reader_open : State :=
  mkState (mkSFTPReader "host" "user" None (Some "pass") 22 (Some 0) (Some 3))
          [EvSSHClient; EvSetPolicy 0;
           EvConnect 0 [("hostname", VStr "host"); ("port", VInt 22);
                        ("username", VStr "user"); ("timeout", VInt 30);
                        ("password", VStr "pass")];
           EvOpenSftp 0].

Definition two_lines : string :=
  "1,Alice" ++ String newline "2,Bob".

Definition three_lines : string :=
  "id,name" ++ String newline two_lines.


(** [reader_open] after [close()]: the handles are still stored. *)
Definition reader_closed : State :=
  mkState (self reader_open) (hist reader_open ++ [EvSftpClose 3; EvClientClose 0]).


Definition client_close_fails : server :=
  mkServer (Ok []) (Ok []) (Ok tt) (Ok tt) (Ok tt) (Raise boom) (Ok tt).

End Sim.

(* ================================================================== *)
(** * Notions used in the statements *)
(* ================================================================== *)

(** The events a run of a method adds to the history. *)
Definition new_events {A} (m : M A) (st : State) : history :=
  skipn (length (hist st)) (hist (snd (m st))).

(** [glob_filter pat names]: the list comprehension of [get_files]. *)
Definition glob_filter (file_pattern : string) (all_files : list string) : list string :=
  filter (fun f => fnmatch f file_pattern) all_files.


(** The teardown of the handles the reader holds has begun: the first
    close call [close()] makes for them is in the history. *)
Definition teardown_started (st : State) : Prop :=
  match _sftp (self st), _client (self st) with
  | Some h, _ => In (EvSftpClose h) (hist st)
  | None, Some c => In (EvClientClose c) (hist st)
  | None, None => True
  end.

(** [connect] authenticates with the key: the key file of the reader is
    loaded, and what is handed to the transport carries the loaded key
    under ["pkey"] and nothing under ["password"]. *)
Definition authenticates_via_key (env : Env) (st : State) : Prop :=
  (exists path, pem_file (self st) = Some path /\
                In (EvLoadKey path) (new_events (connect env) st)) /\
  (forall c kwargs, In (EvConnect c kwargs) (new_events (connect env) st) ->
     dict_get "password" kwargs = None /\
     exists k, dict_get "pkey" kwargs = Some (VKey k)).

(** The file at [path] can be read over [sftp] and its bytes decode as
    UTF-8 to [content]: the calls a fetch makes for it, from the history of
    [st] on, all succeed. *)
Definition readable_utf8 (env : Env) (st : State) (sftp : handle)
    (path content : string) : Prop :=
  sftp_file env (hist st) sftp path "r" = Ok tt /\
  exists raw,
    file_read env (hist st ++ [EvFile sftp path "r"]) (length (hist st)) = Ok raw /\
    bytes_decode env "utf-8" raw = Ok content /\
    file_close env (hist st ++ [EvFile sftp path "r"; EvRead (length (hist st))])
               (length (hist st)) = Ok tt.

Definition is_read_csv (ev : event) : bool :=
  match ev with
  | EvReadCsv _ _ _ => true
  | _ => false
  end.

(** [get_csv_file] hands [content] to the parser once, with these options,
    and returns what the parser makes of it. *)
Definition parsed_with (env : Env) (file_name remote_path : string)
    (column_names : option (list string)) (st : State)
    (content : string) (has_header : bool)
    (new_columns : option (list string)) : Prop :=
  filter is_read_csv
         (new_events (get_csv_file env file_name remote_path column_names) st)
    = [EvReadCsv content has_header new_columns] /\
  fst (get_csv_file env file_name remote_path column_names st)
    = match read_csv env content has_header new_columns with
      | Ok df => Ok (Some df)
      | Raise _ => Ok None
      end.


(** The reader with other handles stored. *)
Definition with_handles (s : SFTPReader) (client sftp : option handle) : SFTPReader :=
  mkSFTPReader (hostname s) (username s) (pem_file s) (password s) (port s)
               client sftp.

(** The close calls on the session. *)
Definition is_close_event (ev : event) : bool :=
  match ev with
  | EvSftpClose _ | EvClientClose _ => true
  | _ => false
  end.

(** The calls that set a session up or tear it down. *)
Definition is_session_event (ev : event) : bool :=
  match ev with
  | EvSSHClient | EvSetPolicy _ | EvLoadKey _ | EvConnect _ _ | EvOpenSftp _
  | EvSftpClose _ | EvClientClose _ => true
  | _ => false
  end.

Definition is_detect (ev : event) : bool :=
  match ev with
  | EvDetect _ => true
  | _ => false
  end.

Definition is_load_key (ev : event) : bool :=
  match ev with
  | EvLoadKey _ => true
  | _ => false
  end.

Definition is_connect (ev : event) : bool :=
  match ev with
  | EvConnect _ _ => true
  | _ => false
  end.

(** The file at [path] can be read in binary mode over [sftp] and holds
    [raw]: the calls a fetch makes for it, from the history of [st] on, all
    succeed. *)
Definition readable_bytes (env : Env) (st : State) (sftp : handle)
    (path : string) (raw : bytes) : Prop :=
  sftp_file env (hist st) sftp path "rb" = Ok tt /\
  file_read env (hist st ++ [EvFile sftp path "rb"]) (length (hist st)) = Ok raw /\
  file_close env (hist st ++ [EvFile sftp path "rb"; EvRead (length (hist st))])
             (length (hist st)) = Ok tt.

(** The handles stored on the reader name calls of the history. *)
Definition handles_known (st : State) : Prop :=
  (forall h, _sftp (self st) = Some h -> h < length (hist st)) /\
  (forall c, _client (self st) = Some c -> c < length (hist st)).

(** Patterns without a glob metacharacter. *)
Definition is_wildcard (c : ascii) : bool :=
  Ascii.eqb c "*" || Ascii.eqb c "?" || Ascii.eqb c "[".

Fixpoint plain (pat : string) : bool :=
  match pat with
  | EmptyString => true
  | String c pat' => negb (is_wildcard c) && plain pat'
  end.

(** The calls on a remote file: opening, reading, closing. *)
Definition is_file_event (ev : event) : bool :=
  match ev with
  | EvFile _ _ _ | EvRead _ | EvFileClose _ => true
  | _ => false
  end.

(* ================================================================== *)
(** * Properties *)
(* ================================================================== *)

(** Unfolding of the monad and of the primitive steps. *)
Ltac unfold_py :=
  unfold bind, ret, raise, lift, call, call_new, print, get_self,
         set_client, set_sftp, try_except, try_finally, log in *.

Lemma skipn_app_exact {A} (l l' : list A) : skipn (length l) (l ++ l') = l'.
Proof. induction l; simpl; auto. Qed.

Lemma app_assoc_cons {A} (l : list A) (x : A) (l' : list A) :
  (l ++ [x]) ++ l' = l ++ x :: l'.
Proof. rewrite <- app_assoc. reflexivity. Qed.

(** ** The glob matcher on a few names *)

Example fnmatch_star_csv : fnmatch "orders.csv" "*.csv" = true.
Proof. reflexivity. Qed.

Example fnmatch_case_sensitive : fnmatch "ORDERS.CSV" "*.csv" = false.
Proof. reflexivity. Qed.

Example fnmatch_question :
  fnmatch "a1.txt" "a?.txt" = true /\ fnmatch "a12.txt" "a?.txt" = false.
Proof. split; reflexivity. Qed.

Example fnmatch_set :
  fnmatch "file3.csv" "file[0-9].csv" = true /\
  fnmatch "fileA.csv" "file[0-9].csv" = false /\
  fnmatch "fileA.csv" "file[!0-9].csv" = true /\
  fnmatch "a]" "a[]]" = true /\
  fnmatch "a[b" "a[b" = true.
Proof. repeat split; reflexivity. Qed.

(** ** The path join *)

Lemma rstrip_slash_no_trailing (s : string) :
  ends_with_slash (rstrip_slash s) = false.
Proof.
  unfold ends_with_slash.
  induction s as [|c s IH]; simpl; auto.
  destruct (rstrip_slash s) as [|d r] eqn:E.
  - destruct (Ascii.eqb c "/") eqn:Ec; simpl; auto.
  - destruct r; simpl in *; exact IH.
Qed.

Lemma rstrip_slash_decompose (s : string) :
  exists n, s = (rstrip_slash s ++ slashes n)%string.
Proof.
  induction s as [|c s [n IH]]; simpl.
  - exists 0. reflexivity.
  - destruct (rstrip_slash s) as [|d r] eqn:E.
    + destruct (Ascii.eqb c "/") eqn:Ec.
      * apply Ascii.eqb_eq in Ec. subst c. exists (S n). simpl in *.
        rewrite <- IH. reflexivity.
      * exists n. simpl in *. rewrite <- IH. reflexivity.
    + exists n. simpl in *. rewrite <- IH. reflexivity.
Qed.


Lemma strip_one_slash_agrees (s : string) :
  ends_with_slash (strip_one_slash s) = false ->
  rstrip_slash s = strip_one_slash s.
Proof.
  unfold ends_with_slash.
  induction s as [|c s IH]; [reflexivity|].
  destruct s as [|d s'].
  - intros _. simpl. reflexivity.
  - intros H.
    change (strip_one_slash (String c (String d s')))
      with (String c (strip_one_slash (String d s'))) in *.
    change (rstrip_slash (String c (String d s')))
      with (match rstrip_slash (String d s') with
            | EmptyString => if Ascii.eqb c "/" then EmptyString else String c EmptyString
            | String a r => String c (String a r)
            end).
    destruct (strip_one_slash (String d s')) as [|e r] eqn:E.
    + assert (R : rstrip_slash (String d s') = EmptyString).
      { destruct s'; simpl in E |- *.
        - destruct (Ascii.eqb d "/"); [reflexivity|discriminate].
        - discriminate. }
      rewrite R. simpl in H.
      destruct (Ascii.eqb c "/"); [discriminate|reflexivity].
    + change (last_char (String c (String e r))) with (last_char (String e r)) in H.
      rewrite (IH H). reflexivity.
Qed.

(** C4, as amended.  The requested path is the directory without ALL of
    its trailing slashes, then one slash, then the file name: the
    directory is [stem] followed by some number [n] of slashes, [stem] does
    not end in a slash, and the path is [stem/file_name].  This is the
    normalisation of the specification (exactly one slash removed) whenever
    that one leaves no trailing slash, and in particular ["/data"] and
    ["/data/"] with ["f.csv"] both give ["/data/f.csv"]. *)
Theorem remote_file_path_strips_all_slashes :
  forall remote_path file_name : string,
    (exists stem n,
        remote_path = (stem ++ slashes n)%string /\
        ends_with_slash stem = false /\
        remote_file_path remote_path file_name = (stem ++ "/" ++ file_name)%string) /\
    (ends_with_slash (strip_one_slash remote_path) = false ->
     remote_file_path remote_path file_name
     = spec_remote_file_path remote_path file_name) /\
    remote_file_path "/data" "f.csv" = "/data/f.csv" /\
    remote_file_path "/data/" "f.csv" = "/data/f.csv".
Proof.
  intros rp fn. repeat split.
  - destruct (rstrip_slash_decompose rp) as [n Hn].
    exists (rstrip_slash rp), n. repeat split.
    + exact Hn.
    + apply rstrip_slash_no_trailing.
  - intros H. unfold remote_file_path, spec_remote_file_path.
    rewrite (strip_one_slash_agrees rp H). reflexivity.
Qed.

Lemma remote_file_path_strips_all_slashes_witness :
  remote_file_path "/data/" "f.csv" = spec_remote_file_path "/data/" "f.csv".
Proof.
  apply (proj1 (proj2 (remote_file_path_strips_all_slashes "/data/" "f.csv"))).
  reflexivity.
Defined.

(** C4, as stated, fails: with two trailing slashes the reader removes
    both, where removing exactly one would leave ["/data//f.csv"]. *)
Lemma remote_file_path_not_strip_one :
  remote_file_path "/data//" "f.csv" = "/data/f.csv" /\
  spec_remote_file_path "/data//" "f.csv" = "/data//f.csv" /\
  remote_file_path "/data//" "f.csv" <> spec_remote_file_path "/data//" "f.csv".
Proof.
  repeat split. discriminate.
Qed.

(** ** [connect] *)

(** A successful [connect] leaves both handles stored on the reader and
    only adds to the history. *)
Lemma connect_ok_handles (env : Env) (st st1 : State) :
  connect env st = (Ok tt, st1) ->
  exists c h new,
    _client (self st1) = Some c /\ _sftp (self st1) = Some h /\
    hist st1 = hist st ++ new.
Proof.
  unfold connect, auth_kwargs. unfold_py.
  destruct st as [[hn un pf pw pt cl sf] hs]; cbn.
  destruct (negb (truthy_str pw) && negb (truthy_str pf)); [discriminate|].
  destruct pf as [path|]; cbn.
  - destruct (negb (path =? "")%string); cbn.
    + destruct (from_private_key_file env _ path) as [k|e]; cbn; [|discriminate].
      destruct (ssh_connect env _ _ _) as [[]|e]; cbn; [|discriminate].
      destruct (open_sftp env _ _) as [[]|e]; cbn; [|discriminate].
      intros H; inversion H; subst; clear H; cbn.
      do 3 eexists; repeat split.
      rewrite !app_assoc_cons. reflexivity.
    + destruct (ssh_connect env _ _ _) as [[]|e]; cbn; [|discriminate].
      destruct (open_sftp env _ _) as [[]|e]; cbn; [|discriminate].
      intros H; inversion H; subst; clear H; cbn.
      do 3 eexists; repeat split.
      rewrite !app_assoc_cons. reflexivity.
  - destruct (ssh_connect env _ _ _) as [[]|e]; cbn; [|discriminate].
    destruct (open_sftp env _ _) as [[]|e]; cbn; [|discriminate].
    intros H; inversion H; subst; clear H; cbn.
    do 3 eexists; repeat split.
    rewrite !app_assoc_cons. reflexivity.
Qed.

(** C6.  Whatever the host name, the user name, the port and the handles a
    reader holds, [connect] on a reader with neither a password nor a key
    file raises the [ValueError] for the missing credential, and nothing
    has been called: the reader and the history are as before. *)
Theorem connect_without_credentials_raises :
  forall (env : Env) (hostname username : string) (port : Z)
         (client sftp : option handle) (h : history),
    connect env (mkState (mkSFTPReader hostname username None None port client sftp) h)
    = (Raise (ValueError "Either password or pem_file must be provided"),
       mkState (mkSFTPReader hostname username None None port client sftp) h).
Proof.
  intros. reflexivity.
Qed.

(** The same for every reader whose two credentials are false in Python's
    sense, the empty string included. *)
Lemma connect_falsy_credentials_raises (env : Env) (st : State) :
  truthy_str (password (self st)) = false ->
  truthy_str (pem_file (self st)) = false ->
  connect env st = (Raise missing_credential, st).
Proof.
  intros Hp Hk. unfold connect. unfold_py. rewrite Hp, Hk. reflexivity.
Qed.

(** What [connect] calls when the key file is set to a non-empty path: the
    client is created, the key is loaded, and the transport is given the
    base parameters and the key. *)
Lemma connect_key_branch (env : Env) (st : State) (path : string) :
  pem_file (self st) = Some path ->
  truthy_str (Some path) = true ->
  new_events (connect env) st =
    [EvSSHClient; EvSetPolicy (length (hist st)); EvLoadKey path] ++
    match from_private_key_file env
            (hist st ++ [EvSSHClient; EvSetPolicy (length (hist st))]) path with
    | Raise _ => []
    | Ok k =>
        EvConnect (length (hist st)) (base_kwargs (self st) ++ [("pkey", VKey k)]) ::
        match ssh_connect env
                (hist st ++ [EvSSHClient; EvSetPolicy (length (hist st)); EvLoadKey path])
                (length (hist st))
                (base_kwargs (self st) ++ [("pkey", VKey k)]) with
        | Raise _ => []
        | Ok _ => [EvOpenSftp (length (hist st))]
        end
    end.
Proof.
  intros Hpem Htruthy.
  destruct st as [[hn un pf pw pt cl sf] hs]; cbn in Hpem; subst pf.
  unfold new_events, connect, auth_kwargs. unfold_py.
  cbn [self hist pem_file password hostname username port _client _sftp].
  rewrite Htruthy, andb_false_r.
  cbn [self hist pem_file password hostname username port _client _sftp fst snd].
  rewrite <- !app_assoc. cbn [app].
  change (dict_set "pkey") with (fun v d => dict_set "pkey" v d).
  destruct (from_private_key_file env _ path) as [k|e];
    cbn [self hist fst snd]; [|apply skipn_app_exact].
  change (dict_set "pkey" (VKey k)
            (base_kwargs (mkSFTPReader hn un (Some path) pw pt cl sf)))
    with (base_kwargs (mkSFTPReader hn un (Some path) pw pt cl sf) ++ [("pkey", VKey k)]).
  rewrite <- ?app_assoc. cbn [app].
  destruct (ssh_connect env _ _ _) as [[]|e];
    cbn [self hist fst snd]; [|apply skipn_app_exact].
  rewrite <- ?app_assoc. cbn [app].
  destruct (open_sftp env _ _) as [[]|e]; cbn [self hist fst snd];
    rewrite <- ?app_assoc; cbn [app]; apply skipn_app_exact.
Qed.

Lemma dict_get_base_password (s : SFTPReader) (v : pyval) :
  dict_get "password" (base_kwargs s ++ [("pkey", v)]) = None /\
  dict_get "pkey" (base_kwargs s ++ [("pkey", v)]) = Some v.
Proof. split; reflexivity. Qed.

(** C7, as amended.  On a reader whose key file and password are both set
    to non-empty values, [connect] authenticates with the key: the key file
    is loaded, every parameter set handed to the transport holds the loaded
    key under ["pkey"] and has no ["password"] entry, and once the key is
    loaded the transport is called with exactly the base parameters and
    that key. *)
Theorem connect_prefers_key :
  forall (env : Env) (st : State),
    truthy_str (pem_file (self st)) = true ->
    truthy_str (password (self st)) = true ->
    authenticates_via_key env st /\
    (forall path k,
        pem_file (self st) = Some path ->
        from_private_key_file env
          (hist st ++ [EvSSHClient; EvSetPolicy (length (hist st))]) path = Ok k ->
        In (EvConnect (length (hist st)) (base_kwargs (self st) ++ [("pkey", VKey k)]))
           (new_events (connect env) st)).
Proof.
  intros env st Hpem _.
  destruct (pem_file (self st)) as [path|] eqn:Epem; [|discriminate].
  pose proof (connect_key_branch env st path Epem Hpem) as Hnew.
  split; [split|].
  - exists path. split; [exact Epem|].
    rewrite Hnew. simpl. auto.
  - intros c kwargs Hin. rewrite Hnew in Hin.
    simpl in Hin.
    destruct Hin as [H|[H|[H|Hin]]]; try discriminate.
    destruct (from_private_key_file env _ path) as [k|e]; [|contradiction].
    destruct Hin as [H|Hin].
    + inversion H; subst. destruct (dict_get_base_password (self st) (VKey k)).
      split; [assumption|]. exists k. assumption.
    + destruct (ssh_connect env _ _ _) as [[]|e]; simpl in Hin.
      * destruct Hin as [H|[]]. discriminate.
      * contradiction.
  - intros p k Hp Hk. inversion Hp; subst p.
    rewrite Hnew, Hk. simpl. auto.
Qed.

Lemma connect_prefers_key_witness :
  authenticates_via_key (Sim.env_of (Sim.healthy [] "")) Sim.reader_both.
Proof.
  apply (connect_prefers_key (Sim.env_of (Sim.healthy [] "")) Sim.reader_both);
    reflexivity.
Defined.

(** C7, as stated, fails: a key file set to the empty string is false to
    [if self.pem_file], so with a password set as well the reader
    authenticates with the password; no key is loaded and the transport
    receives the ["password"] entry. *)
Lemma connect_empty_key_uses_password :
  pem_file (self Sim.reader_empty_pem) = Some "" /\
  password (self Sim.reader_empty_pem) = Some "pass" /\
  new_events (connect (Sim.env_of (Sim.healthy [] ""))) Sim.reader_empty_pem
  = [EvSSHClient; EvSetPolicy 0;
     EvConnect 0 [("hostname", VStr "host"); ("port", VInt 22);
                  ("username", VStr "user"); ("timeout", VInt 30);
                  ("password", VStr "pass")];
     EvOpenSftp 0] /\
  ~ authenticates_via_key (Sim.env_of (Sim.healthy [] "")) Sim.reader_empty_pem.
Proof.
  repeat split.
  intros [[path [Hp Hin]] _].
  inversion Hp; subst path.
  vm_compute in Hin.
  repeat (destruct Hin as [Hin|Hin]; [discriminate|]).
  exact Hin.
Qed.

(** ** [close] *)

(** [close] call by call. *)
Lemma close_eq (env : Env) (st : State) :
  close env st =
  match _sftp (self st) with
  | Some h =>
      match sftp_close env (hist st) h with
      | Raise e => (Raise e, mkState (self st) (hist st ++ [EvSftpClose h]))
      | Ok _ =>
          match _client (self st) with
          | Some c =>
              (client_close env (hist st ++ [EvSftpClose h]) c,
               mkState (self st) (hist st ++ [EvSftpClose h; EvClientClose c]))
          | None => (Ok tt, mkState (self st) (hist st ++ [EvSftpClose h]))
          end
      end
  | None =>
      match _client (self st) with
      | Some c => (client_close env (hist st) c,
                   mkState (self st) (hist st ++ [EvClientClose c]))
      | None => (Ok tt, st)
      end
  end.
Proof.
  destruct st as [s hs]. unfold close. unfold_py. cbn [self hist].
  destruct (_sftp s) as [h|]; destruct (_client s) as [c|]; cbn [self hist].
  - destruct (sftp_close env hs h) as [[]|e]; cbn [self hist]; [|reflexivity].
    rewrite <- app_assoc. reflexivity.
  - destruct (sftp_close env hs h) as [[]|e]; reflexivity.
  - reflexivity.
  - reflexivity.
Qed.

(** Whenever [close] has run, the teardown of the handles has begun. *)
Lemma close_starts_teardown (env : Env) (st : State) :
  teardown_started (snd (close env st)).
Proof.
  rewrite close_eq. unfold teardown_started.
  destruct (_sftp (self st)) as [h|] eqn:Es; destruct (_client (self st)) as [c|] eqn:Ec.
  - destruct (sftp_close env (hist st) h); cbn [snd self hist]; rewrite Es;
      apply in_or_app; right; simpl; auto.
  - destruct (sftp_close env (hist st) h); cbn [snd self hist]; rewrite Es;
      apply in_or_app; right; simpl; auto.
  - cbn [snd self hist]. rewrite Es, Ec. apply in_or_app; right; simpl; auto.
  - cbn [snd]. rewrite Es, Ec. exact I.
Qed.

(** C3, as amended.  [close] is a no-op when no handle is stored.  With
    handles stored, what it does is decided by the underlying close calls:
    when closing the SFTP client fails, [close] raises that failure and
    the SSH client is not closed; when it succeeds, the SSH client is
    closed next, and [close] returns or raises as that second call does.
    So the handles are closed SFTP client first, SSH client second, [close]
    returns normally when the calls succeed, and no failure of theirs is
    caught. *)
Theorem close_propagates_close_failures :
  forall (env : Env) (st : State),
    (_sftp (self st) = None -> _client (self st) = None ->
     close env st = (Ok tt, st)) /\
    (forall h e,
        _sftp (self st) = Some h ->
        sftp_close env (hist st) h = Raise e ->
        fst (close env st) = Raise e /\
        new_events (close env) st = [EvSftpClose h]) /\
    (forall h c,
        _sftp (self st) = Some h ->
        _client (self st) = Some c ->
        sftp_close env (hist st) h = Ok tt ->
        fst (close env st) = client_close env (hist st ++ [EvSftpClose h]) c /\
        new_events (close env) st = [EvSftpClose h; EvClientClose c]) /\
    (forall h,
        _sftp (self st) = Some h ->
        _client (self st) = None ->
        sftp_close env (hist st) h = Ok tt ->
        fst (close env st) = Ok tt /\
        new_events (close env) st = [EvSftpClose h]) /\
    (forall c,
        _sftp (self st) = None ->
        _client (self st) = Some c ->
        fst (close env st) = client_close env (hist st) c /\
        new_events (close env) st = [EvClientClose c]).
Proof.
  intros env st. unfold new_events. rewrite close_eq.
  split; [|split; [|split; [|split]]].
  - intros -> ->. reflexivity.
  - intros h e -> ->. cbn [fst snd hist]. rewrite skipn_app_exact. split; reflexivity.
  - intros h c -> -> ->. cbn [fst snd hist]. rewrite skipn_app_exact.
    split; reflexivity.
  - intros h -> -> ->. cbn [fst snd hist]. rewrite skipn_app_exact.
    split; reflexivity.
  - intros c -> ->. cbn [fst snd hist]. rewrite skipn_app_exact. split; reflexivity.
Qed.

Lemma close_propagates_close_failures_witness :
  (fst (close (Sim.env_of Sim.client_close_fails) Sim.reader_open) = Raise Sim.boom /\
   new_events (close (Sim.env_of Sim.client_close_fails)) Sim.reader_open
   = [EvSftpClose 3; EvClientClose 0]) /\
  (fst (close (Sim.env_of (Sim.healthy [] "")) Sim.reader_open) = Ok tt /\
   new_events (close (Sim.env_of (Sim.healthy [] ""))) Sim.reader_open
   = [EvSftpClose 3; EvClientClose 0]) /\
  (fst (close (Sim.env_of Sim.sftp_close_fails) Sim.connected_reader) = Raise Sim.boom /\
   new_events (close (Sim.env_of Sim.sftp_close_fails)) Sim.connected_reader
   = [EvSftpClose 0]) /\
  close (Sim.env_of Sim.sftp_close_fails) Sim.reader_bare = (Ok tt, Sim.reader_bare).
Proof.
  split; [|split; [|split]].
  - apply (proj1 (proj2 (proj2 (close_propagates_close_failures
                                  (Sim.env_of Sim.client_close_fails) Sim.reader_open)))
             3 0); reflexivity.
  - apply (proj1 (proj2 (proj2 (close_propagates_close_failures
                                  (Sim.env_of (Sim.healthy [] "")) Sim.reader_open)))
             3 0); reflexivity.
  - apply (proj1 (proj2 (close_propagates_close_failures
                           (Sim.env_of Sim.sftp_close_fails) Sim.connected_reader))
             0 Sim.boom); reflexivity.
  - apply (proj1 (close_propagates_close_failures
                    (Sim.env_of Sim.sftp_close_fails) Sim.reader_bare));
      reflexivity.
Defined.

(** C3, as stated, fails: when closing the SFTP client fails, [close]
    raises that failure, and the SSH client has not been closed. *)
Lemma close_raises_when_sftp_close_fails :
  close (Sim.env_of Sim.sftp_close_fails) Sim.reader_open
  = (Raise Sim.boom,
     mkState (self Sim.reader_open) (hist Sim.reader_open ++ [EvSftpClose 3])) /\
  ~ In (EvClientClose 0)
       (hist (snd (close (Sim.env_of Sim.sftp_close_fails) Sim.reader_open))).
Proof.
  split; [reflexivity|].
  vm_compute. intros H.
  repeat (destruct H as [H|H]; [discriminate|]). exact H.
Qed.

(** ** [get_files] *)

(** [get_files] once [connect] has succeeded: the listing, then the two
    close calls, and the outcome. *)
Lemma get_files_eq (env : Env) (remote_path file_pattern : string)
    (st st1 : State) (h c : handle) :
  connect env st = (Ok tt, st1) ->
  _sftp (self st1) = Some h ->
  _client (self st1) = Some c ->
  get_files env remote_path file_pattern st =
  match sftp_close env (hist st1 ++ [EvListdir h remote_path]) h with
  | Raise e =>
      (Raise e,
       mkState (self st1) (hist st1 ++ [EvListdir h remote_path; EvSftpClose h]))
  | Ok _ =>
      (match client_close env
               (hist st1 ++ [EvListdir h remote_path; EvSftpClose h]) c with
       | Raise e => Raise e
       | Ok _ =>
           match sftp_listdir env (hist st1) h remote_path with
           | Ok all_files => Ok (glob_filter file_pattern all_files)
           | Raise e => Raise e
           end
       end,
       mkState (self st1)
         (hist st1 ++ [EvListdir h remote_path; EvSftpClose h; EvClientClose c]))
  end.
Proof.
  intros Hc Hs Hcl.
  unfold get_files, bind at 1. rewrite Hc.
  unfold try_finally, get_files_body. unfold_py. rewrite Hs.
  destruct (sftp_listdir env (hist st1) h remote_path) as [names|e0];
    rewrite close_eq; cbn [self hist]; rewrite Hs, Hcl;
    (destruct (sftp_close env _ h) as [[]|e1];
     [ cbn [self hist]; rewrite <- !app_assoc; cbn [app];
       destruct (client_close env _ c) as [[]|e2]; reflexivity
     | rewrite <- !app_assoc; reflexivity ]).
Qed.


(** C1, as amended.  Whenever [connect] has succeeded, [get_files] calls
    [close] right after the listing call, on every way out of the listing,
    success or failure.  The SFTP client that [connect] opened is closed
    first; if that call fails, its failure is what [get_files] raises and
    the SSH client is not closed; if it succeeds, the SSH client that
    [connect] created is closed next, and only then does the outcome reach
    the caller: the failure of that second close call if it failed, else
    the failure of the listing if it failed, else the matching names. *)
Theorem get_files_closes_after_listing :
  forall (env : Env) (remote_path file_pattern : string) (st st1 : State),
    connect env st = (Ok tt, st1) ->
    exists h c,
      _sftp (self st1) = Some h /\ _client (self st1) = Some c /\
      teardown_started (snd (get_files env remote_path file_pattern st)) /\
      (forall e,
          sftp_close env (hist st1 ++ [EvListdir h remote_path]) h = Raise e ->
          fst (get_files env remote_path file_pattern st) = Raise e /\
          hist (snd (get_files env remote_path file_pattern st))
          = hist st1 ++ [EvListdir h remote_path; EvSftpClose h]) /\
      (sftp_close env (hist st1 ++ [EvListdir h remote_path]) h = Ok tt ->
       hist (snd (get_files env remote_path file_pattern st))
       = hist st1 ++ [EvListdir h remote_path; EvSftpClose h; EvClientClose c] /\
       fst (get_files env remote_path file_pattern st)
       = match client_close env
                 (hist st1 ++ [EvListdir h remote_path; EvSftpClose h]) c with
         | Raise e => Raise e
         | Ok _ =>
             match sftp_listdir env (hist st1) h remote_path with
             | Ok all_files => Ok (glob_filter file_pattern all_files)
             | Raise e => Raise e
             end
         end).
Proof.
  intros env rp pat st st1 Hc.
  destruct (connect_ok_handles env st st1 Hc) as (c & h & new & Hcl & Hs & _).
  exists h, c. split; [exact Hs|]. split; [exact Hcl|].
  rewrite (get_files_eq env rp pat st st1 h c Hc Hs Hcl).
  split; [|split].
  - unfold teardown_started.
    destruct (sftp_close env _ h) as [[]|e1]; cbn [snd self hist]; rewrite Hs;
      apply in_or_app; right; simpl; auto.
  - intros e ->. split; reflexivity.
  - intros ->. split; reflexivity.
Qed.

Lemma get_files_closes_after_listing_witness :
  (fst (get_files (Sim.env_of Sim.listing_fails) "." "*" Sim.reader_password)
   = Raise Sim.boom /\
   hist (snd (get_files (Sim.env_of Sim.listing_fails) "." "*" Sim.reader_password))
   = hist Sim.reader_open ++ [EvListdir 3 "."; EvSftpClose 3; EvClientClose 0]) /\
  (fst (get_files (Sim.env_of (Sim.healthy ["a.csv"; "b.txt"] "")) "." "*.csv"
          Sim.reader_password)
   = Ok ["a.csv"] /\
   hist (snd (get_files (Sim.env_of (Sim.healthy ["a.csv"; "b.txt"] "")) "." "*.csv"
                Sim.reader_password))
   = hist Sim.reader_open ++ [EvListdir 3 "."; EvSftpClose 3; EvClientClose 0]) /\
  (fst (get_files (Sim.env_of Sim.sftp_close_fails) "." "*" Sim.reader_password)
   = Raise Sim.boom /\
   hist (snd (get_files (Sim.env_of Sim.sftp_close_fails) "." "*" Sim.reader_password))
   = hist Sim.reader_open ++ [EvListdir 3 "."; EvSftpClose 3]).
Proof.
  split; [|split].
  - destruct (get_files_closes_after_listing (Sim.env_of Sim.listing_fails) "." "*"
                Sim.reader_password Sim.reader_open eq_refl)
      as (h & c & Hs & Hcl & _ & _ & Hok).
    inversion Hs; subst h. inversion Hcl; subst c.
    destruct (Hok eq_refl) as [Hh Hf].
    split; [exact Hf|exact Hh].
  - destruct (get_files_closes_after_listing
                (Sim.env_of (Sim.healthy ["a.csv"; "b.txt"] "")) "." "*.csv"
                Sim.reader_password Sim.reader_open eq_refl)
      as (h & c & Hs & Hcl & _ & _ & Hok).
    inversion Hs; subst h. inversion Hcl; subst c.
    destruct (Hok eq_refl) as [Hh Hf].
    split; [exact Hf|exact Hh].
  - destruct (get_files_closes_after_listing (Sim.env_of Sim.sftp_close_fails) "." "*"
                Sim.reader_password Sim.reader_open eq_refl)
      as (h & c & Hs & Hcl & _ & Hfail & _).
    inversion Hs; subst h. inversion Hcl; subst c.
    exact (Hfail Sim.boom eq_refl).
Defined.

(** C1, as stated, fails for a failure during [connect]: [connect] runs
    before the [try], so when opening the SFTP subsystem fails the error
    reaches the caller with the SSH client created, connected and stored
    on the reader, and no close call made. *)
Lemma get_files_connect_failure_skips_close :
  get_files (Sim.env_of Sim.no_sftp_subsystem) "." "*" Sim.reader_password
  = (Raise Sim.boom,
     mkState (mkSFTPReader "host" "user" None (Some "pass") 22 (Some 0) None)
       [EvSSHClient; EvSetPolicy 0;
        EvConnect 0 [("hostname", VStr "host"); ("port", VInt 22);
                     ("username", VStr "user"); ("timeout", VInt 30);
                     ("password", VStr "pass")];
        EvOpenSftp 0]) /\
  ~ teardown_started
      (snd (get_files (Sim.env_of Sim.no_sftp_subsystem) "." "*" Sim.reader_password)).
Proof.
  split; [reflexivity|].
  vm_compute. intros H.
  repeat (destruct H as [H|H]; [discriminate|]). exact H.
Qed.



(** ** The fetch methods *)

(** Without a stored SFTP handle the three fetch methods raise
    [RuntimeError] and call nothing. *)
Lemma fetch_without_handle (env : Env) (st : State)
    (file_name remote_path : string) (column_names : option (list string))
    (encoding : option string) :
  _sftp (self st) = None ->
  get_csv_file env file_name remote_path column_names st = (Raise not_connected, st) /\
  get_xml_file_to_string env file_name remote_path st = (Raise not_connected, st) /\
  file_to_string env file_name remote_path encoding st = (Raise not_connected, st).
Proof.
  intros Hs.
  unfold get_csv_file, get_xml_file_to_string, file_to_string. unfold_py.
  rewrite Hs. repeat split.
Qed.

(** Opening, reading, decoding as UTF-8 and closing a file, call by call. *)
Lemma read_text_eq (env : Env) (sftp : handle) (path : string) (st : State) :
  with_file env sftp path "r"
    (fun file =>
       raw <- call (EvRead file) (fun hs => file_read env hs file) ;;
       decode env raw (Some "utf-8")) st =
  match sftp_file env (hist st) sftp path "r" with
  | Raise e => (Raise e, mkState (self st) (hist st ++ [EvFile sftp path "r"]))
  | Ok _ =>
      match file_close env
              (hist st ++ [EvFile sftp path "r"; EvRead (length (hist st))])
              (length (hist st)) with
      | Raise e =>
          (Raise e,
           mkState (self st)
             (hist st ++ [EvFile sftp path "r"; EvRead (length (hist st));
                          EvFileClose (length (hist st))]))
      | Ok _ =>
          (match file_read env (hist st ++ [EvFile sftp path "r"])
                   (length (hist st)) with
           | Raise e => Raise e
           | Ok raw => bytes_decode env "utf-8" raw
           end,
           mkState (self st)
             (hist st ++ [EvFile sftp path "r"; EvRead (length (hist st));
                          EvFileClose (length (hist st))]))
      end
  end.
Proof.
  destruct st as [s hs]. unfold with_file, decode. unfold_py. cbn [self hist].
  destruct (sftp_file env hs sftp path "r") as [[]|e]; [|reflexivity].
  cbn [self hist].
  destruct (file_read env _ _) as [raw|e1]; cbn [self hist].
  - rewrite <- !app_assoc. cbn [app].
    destruct (bytes_decode env "utf-8" raw) as [text|e2];
      destruct (file_close env _ _) as [[]|e3]; reflexivity.
  - rewrite <- !app_assoc. cbn [app].
    destruct (file_close env _ _) as [[]|e3]; reflexivity.
Qed.

(** [get_csv_file] on a reader holding an SFTP handle, in terms of the
    reading of the text and of the answer of the parser. *)
Lemma get_csv_file_eq (env : Env) (st : State) (sftp : handle)
    (file_name remote_path : string) (column_names : option (list string)) :
  _sftp (self st) = Some sftp ->
  get_csv_file env file_name remote_path column_names st =
  match with_file env sftp (remote_file_path remote_path file_name) "r"
          (fun file =>
             raw <- call (EvRead file) (fun hs => file_read env hs file) ;;
             decode env raw (Some "utf-8")) st with
  | (Raise e, st1) =>
      (Ok None, mkState (self st1) (hist st1 ++ [EvPrint (diagnostic file_name e)]))
  | (Ok content, st1) =>
      match read_csv env content (negb (truthy_list column_names))
              (if truthy_list column_names then column_names else None) with
      | Ok df =>
          (Ok (Some df),
           mkState (self st1)
             (hist st1 ++ [EvReadCsv content (negb (truthy_list column_names))
                             (if truthy_list column_names then column_names else None)]))
      | Raise e =>
          (Ok None,
           mkState (self st1)
             (hist st1 ++ [EvReadCsv content (negb (truthy_list column_names))
                             (if truthy_list column_names then column_names else None);
                           EvPrint (diagnostic file_name e)]))
      end
  end.
Proof.
  intros Hs. unfold get_csv_file, get_csv_file_body, fail_soft.
  unfold bind at 1, get_self. rewrite Hs. unfold try_except, bind at 1.
  destruct (with_file _ _ _ _ _ st) as [[content|e] st1]; [|reflexivity].
  destruct (truthy_list column_names); unfold_py; cbn [negb self hist];
    destruct (read_csv env content _ _) as [df|e]; cbn [self hist];
    rewrite <- ?app_assoc; reflexivity.
Qed.

(** The same when the file is readable and decodes to [content]. *)
Lemma get_csv_file_readable_eq (env : Env) (st : State) (sftp : handle)
    (file_name remote_path content : string) (column_names : option (list string)) :
  _sftp (self st) = Some sftp ->
  readable_utf8 env st sftp (remote_file_path remote_path file_name) content ->
  get_csv_file env file_name remote_path column_names st =
  match read_csv env content (negb (truthy_list column_names))
          (if truthy_list column_names then column_names else None) with
  | Ok df =>
      (Ok (Some df),
       mkState (self st)
         (hist st ++ [EvFile sftp (remote_file_path remote_path file_name) "r";
                      EvRead (length (hist st)); EvFileClose (length (hist st));
                      EvReadCsv content (negb (truthy_list column_names))
                        (if truthy_list column_names then column_names else None)]))
  | Raise e =>
      (Ok None,
       mkState (self st)
         (hist st ++ [EvFile sftp (remote_file_path remote_path file_name) "r";
                      EvRead (length (hist st)); EvFileClose (length (hist st));
                      EvReadCsv content (negb (truthy_list column_names))
                        (if truthy_list column_names then column_names else None);
                      EvPrint (diagnostic file_name e)]))
  end.
Proof.
  intros Hs (Hopen & raw & Hread & Hdec & Hclose).
  rewrite (get_csv_file_eq env st sftp file_name remote_path column_names Hs).
  rewrite read_text_eq, Hopen, Hclose, Hread, Hdec. cbn [self hist].
  destruct (read_csv env content _ _) as [df|e];
    rewrite <- app_assoc; reflexivity.
Qed.

(** The parser call [get_csv_file] makes on a readable file. *)
Lemma get_csv_file_parsed_with (env : Env) (st : State) (sftp : handle)
    (file_name remote_path content : string) (column_names : option (list string)) :
  _sftp (self st) = Some sftp ->
  readable_utf8 env st sftp (remote_file_path remote_path file_name) content ->
  parsed_with env file_name remote_path column_names st content
    (negb (truthy_list column_names))
    (if truthy_list column_names then column_names else None).
Proof.
  intros Hs Hr. unfold parsed_with, new_events.
  rewrite (get_csv_file_readable_eq env st sftp file_name remote_path content column_names Hs Hr).
  destruct (read_csv env content _ _) as [df|e]; cbn [fst snd self hist];
    rewrite skipn_app_exact; split; reflexivity.
Qed.

(** C9, as amended.  On a reader holding an SFTP handle, for a file that
    is readable and decodes as UTF-8 to [content]: when [column_names] is a
    non-empty list, [content] is parsed without a header row and with these
    names as the new column names, in their order; when [column_names] is
    absent, it is parsed with its first line as the header. *)
Theorem get_csv_file_header_switch :
  forall (env : Env) (st : State) (sftp : handle)
         (file_name remote_path content : string),
    _sftp (self st) = Some sftp ->
    readable_utf8 env st sftp (remote_file_path remote_path file_name) content ->
    (forall name names,
        parsed_with env file_name remote_path (Some (name :: names)) st
          content false (Some (name :: names))) /\
    parsed_with env file_name remote_path None st content true None.
Proof.
  intros env st sftp fn rp content Hs Hr. split.
  - intros name names.
    exact (get_csv_file_parsed_with env st sftp fn rp content (Some (name :: names)) Hs Hr).
  - exact (get_csv_file_parsed_with env st sftp fn rp content None Hs Hr).
Qed.

Lemma get_csv_file_header_switch_witness :
  fst (get_csv_file (Sim.env_of (Sim.healthy [] Sim.two_lines))
         "data.csv" "." (Some ["id"; "name"]) Sim.connected_reader)
  = Ok (Some (mkDataFrame ["id"; "name"] [["1"; "Alice"]; ["2"; "Bob"]])) /\
  fst (get_csv_file (Sim.env_of (Sim.healthy [] Sim.three_lines))
         "data.csv" "/data" None Sim.connected_reader)
  = Ok (Some (mkDataFrame ["id"; "name"] [["1"; "Alice"]; ["2"; "Bob"]])).
Proof.
  split.
  - apply (proj1 (get_csv_file_header_switch
                    (Sim.env_of (Sim.healthy [] Sim.two_lines)) Sim.connected_reader
                    0 "data.csv" "." Sim.two_lines
                    eq_refl
                    (conj eq_refl
                       (ex_intro _ (list_byte_of_string Sim.two_lines)
                          (conj eq_refl (conj eq_refl eq_refl)))))
             "id" ["name"]).
  - apply (proj2 (get_csv_file_header_switch
                    (Sim.env_of (Sim.healthy [] Sim.three_lines)) Sim.connected_reader
                    0 "data.csv" "/data" Sim.three_lines
                    eq_refl
                    (conj eq_refl
                       (ex_intro _ (list_byte_of_string Sim.three_lines)
                          (conj eq_refl (conj eq_refl eq_refl)))))).
Defined.

(** C9, as stated, fails: an empty list of column names is supplied, yet
    the text is parsed with its first line as the header, not without a
    header. *)
Lemma get_csv_file_empty_names_reads_header :
  readable_utf8 (Sim.env_of (Sim.healthy [] Sim.two_lines)) Sim.connected_reader 0
    (remote_file_path "." "data.csv") Sim.two_lines /\
  get_csv_file (Sim.env_of (Sim.healthy [] Sim.two_lines))
    "data.csv" "." (Some []) Sim.connected_reader
  = (Ok (Some (mkDataFrame ["1"; "Alice"] [["2"; "Bob"]])),
     mkState (self Sim.connected_reader)
       [EvFile 0 "./data.csv" "r"; EvRead 0; EvFileClose 0;
        EvReadCsv Sim.two_lines true None]) /\
  ~ parsed_with (Sim.env_of (Sim.healthy [] Sim.two_lines))
      "data.csv" "." (Some []) Sim.connected_reader Sim.two_lines false (Some []).
Proof.
  split; [|split].
  - split; [reflexivity|].
    exists (list_byte_of_string Sim.two_lines). repeat split.
  - reflexivity.
  - intros [H _]. vm_compute in H. discriminate.
Qed.

(** C10.  An empty list of column names is to [get_csv_file] what no list
    is: the two calls are the same computation, and on a readable file the
    text is parsed with its first line as the header and no new column
    names. *)
Theorem get_csv_file_empty_names_as_absent :
  forall (env : Env) (st : State) (file_name remote_path : string),
    get_csv_file env file_name remote_path (Some []) st
    = get_csv_file env file_name remote_path None st /\
    (forall sftp content,
        _sftp (self st) = Some sftp ->
        readable_utf8 env st sftp (remote_file_path remote_path file_name) content ->
        parsed_with env file_name remote_path (Some []) st content true None).
Proof.
  intros env st fn rp. split.
  - reflexivity.
  - intros sftp content Hs Hr.
    exact (get_csv_file_parsed_with env st sftp fn rp content (Some []) Hs Hr).
Qed.

Lemma get_csv_file_empty_names_as_absent_witness :
  parsed_with (Sim.env_of (Sim.healthy [] Sim.two_lines))
    "data.csv" "." (Some []) Sim.connected_reader Sim.two_lines true None.
Proof.
  apply (proj2 (get_csv_file_empty_names_as_absent
                  (Sim.env_of (Sim.healthy [] Sim.two_lines)) Sim.connected_reader
                  "data.csv" ".") 0 Sim.two_lines eq_refl).
  split; [reflexivity|].
  exists (list_byte_of_string Sim.two_lines). repeat split.
Defined.

(** [close] leaves the reader as it is, stored handles included. *)
Lemma close_keeps_self (env : Env) (st : State) :
  self (snd (close env st)) = self st.
Proof.
  rewrite close_eq.
  destruct (_sftp (self st)) as [h|]; destruct (_client (self st)) as [c|];
    try destruct (sftp_close env (hist st) h) as [[]|e]; reflexivity.
Qed.

(** [get_xml_file_to_string] and [file_to_string] on a reader holding an
    SFTP handle: the [try] suite under the handler. *)
Lemma get_xml_file_to_string_eq (env : Env) (st : State) (sftp : handle)
    (file_name remote_path : string) :
  _sftp (self st) = Some sftp ->
  get_xml_file_to_string env file_name remote_path st =
  try_except (get_xml_file_to_string_body env sftp file_name remote_path)
             (fail_soft file_name) st.
Proof.
  intros Hs. unfold get_xml_file_to_string, bind at 1, get_self.
  rewrite Hs. reflexivity.
Qed.

Lemma file_to_string_eq (env : Env) (st : State) (sftp : handle)
    (file_name remote_path : string) (encoding : option string) :
  _sftp (self st) = Some sftp ->
  file_to_string env file_name remote_path encoding st =
  try_except (file_to_string_body env sftp file_name remote_path encoding)
             (fail_soft file_name) st.
Proof.
  intros Hs. unfold file_to_string, bind at 1, get_self.
  rewrite Hs. reflexivity.
Qed.






(** The failures [get_csv_file] contains, one by one: of the opening, of
    the reading, of the decoding and of the parsing. *)
Lemma get_csv_file_failure_points (env : Env) (st : State) (sftp : handle)
    (file_name remote_path : string) (column_names : option (list string)) :
  _sftp (self st) = Some sftp ->
  (forall e,
      sftp_file env (hist st) sftp (remote_file_path remote_path file_name) "r"
      = Raise e ->
      get_csv_file env file_name remote_path column_names st
      = (Ok None,
         mkState (self st)
           (hist st ++ [EvFile sftp (remote_file_path remote_path file_name) "r";
                        EvPrint (diagnostic file_name e)]))) /\
  (forall e,
      sftp_file env (hist st) sftp (remote_file_path remote_path file_name) "r"
      = Ok tt ->
      file_read env
        (hist st ++ [EvFile sftp (remote_file_path remote_path file_name) "r"])
        (length (hist st)) = Raise e ->
      file_close env
        (hist st ++ [EvFile sftp (remote_file_path remote_path file_name) "r";
                     EvRead (length (hist st))])
        (length (hist st)) = Ok tt ->
      get_csv_file env file_name remote_path column_names st
      = (Ok None,
         mkState (self st)
           (hist st ++ [EvFile sftp (remote_file_path remote_path file_name) "r";
                        EvRead (length (hist st)); EvFileClose (length (hist st));
                        EvPrint (diagnostic file_name e)]))) /\
  (forall raw e,
      sftp_file env (hist st) sftp (remote_file_path remote_path file_name) "r"
      = Ok tt ->
      file_read env
        (hist st ++ [EvFile sftp (remote_file_path remote_path file_name) "r"])
        (length (hist st)) = Ok raw ->
      file_close env
        (hist st ++ [EvFile sftp (remote_file_path remote_path file_name) "r";
                     EvRead (length (hist st))])
        (length (hist st)) = Ok tt ->
      bytes_decode env "utf-8" raw = Raise e ->
      get_csv_file env file_name remote_path column_names st
      = (Ok None,
         mkState (self st)
           (hist st ++ [EvFile sftp (remote_file_path remote_path file_name) "r";
                        EvRead (length (hist st)); EvFileClose (length (hist st));
                        EvPrint (diagnostic file_name e)]))) /\
  (forall content e,
      readable_utf8 env st sftp (remote_file_path remote_path file_name) content ->
      read_csv env content (negb (truthy_list column_names))
        (if truthy_list column_names then column_names else None) = Raise e ->
      get_csv_file env file_name remote_path column_names st
      = (Ok None,
         mkState (self st)
           (hist st ++ [EvFile sftp (remote_file_path remote_path file_name) "r";
                        EvRead (length (hist st)); EvFileClose (length (hist st));
                        EvReadCsv content (negb (truthy_list column_names))
                          (if truthy_list column_names then column_names else None);
                        EvPrint (diagnostic file_name e)]))).
Proof.
  intros Hs. repeat split.
  - intros e Ho.
    rewrite (get_csv_file_eq env st sftp file_name remote_path column_names Hs).
    rewrite read_text_eq, Ho. cbn [self hist]. rewrite <- app_assoc. reflexivity.
  - intros e Ho Hr Hc.
    rewrite (get_csv_file_eq env st sftp file_name remote_path column_names Hs).
    rewrite read_text_eq, Ho, Hc, Hr. cbn [self hist].
    rewrite <- app_assoc. reflexivity.
  - intros raw e Ho Hr Hc Hd.
    rewrite (get_csv_file_eq env st sftp file_name remote_path column_names Hs).
    rewrite read_text_eq, Ho, Hc, Hr, Hd. cbn [self hist].
    rewrite <- app_assoc. reflexivity.
  - intros content e Hr Hp.
    rewrite (get_csv_file_readable_eq env st sftp file_name remote_path content
               column_names Hs Hr), Hp.
    reflexivity.
Qed.

(** [file_to_string] when the detector has no guess: decoding with [None]
    is a [TypeError], which is contained like any other failure. *)
Lemma file_to_string_undetected (env : Env) (st : State) (sftp : handle)
    (file_name remote_path : string) (raw : bytes) :
  _sftp (self st) = Some sftp ->
  sftp_file env (hist st) sftp (remote_file_path remote_path file_name) "rb" = Ok tt ->
  file_read env
    (hist st ++ [EvFile sftp (remote_file_path remote_path file_name) "rb"])
    (length (hist st)) = Ok raw ->
  file_close env
    (hist st ++ [EvFile sftp (remote_file_path remote_path file_name) "rb";
                 EvRead (length (hist st))])
    (length (hist st)) = Ok tt ->
  chardet_detect env raw = None ->
  file_to_string env file_name remote_path None st
  = (Ok None,
     mkState (self st)
       (hist st ++ [EvFile sftp (remote_file_path remote_path file_name) "rb";
                    EvRead (length (hist st)); EvFileClose (length (hist st));
                    EvDetect raw;
                    EvPrint (diagnostic file_name
                               (TypeError "decode() argument 'encoding' must be str, not None"))])).
Proof.
  intros Hs Ho Hr Hc Hd.
  rewrite (file_to_string_eq env st sftp file_name remote_path None Hs).
  destruct st as [s hs]. cbn [self hist] in *.
  unfold file_to_string_body, with_file, decode, fail_soft. unfold_py.
  cbn [self hist]. rewrite Ho. cbn [self hist]. rewrite Hr.
  rewrite <- !app_assoc. cbn [app self hist]. rewrite Hc, Hd.
  cbn [self hist]. rewrite <- !app_assoc. reflexivity.
Qed.

(** After [close()] the SFTP handle is still stored, so the guard of the
    fetch methods lets the call through: [get_csv_file] does not raise the
    [RuntimeError] and asks the closed SFTP client for the file. *)
Lemma fetch_after_close_calls_server (env : Env) (st : State) (sftp : handle)
    (file_name remote_path : string) (column_names : option (list string)) :
  _sftp (self st) = Some sftp ->
  _sftp (self (snd (close env st))) = Some sftp /\
  fst (get_csv_file env file_name remote_path column_names (snd (close env st)))
    <> Raise not_connected /\
  In (EvFile sftp (remote_file_path remote_path file_name) "r")
     (new_events (get_csv_file env file_name remote_path column_names)
                 (snd (close env st))).
Proof.
  intros Hs.
  assert (Hs' : _sftp (self (snd (close env st))) = Some sftp).
  { rewrite close_keeps_self. exact Hs. }
  split; [exact Hs'|].
  unfold new_events.
  rewrite (get_csv_file_eq env _ sftp file_name remote_path column_names Hs').
  rewrite read_text_eq.
  destruct (sftp_file env _ sftp _ "r") as [[]|e0];
    [destruct (file_close env _ _) as [[]|e1];
     [destruct (file_read env _ _) as [raw|e2];
      [destruct (bytes_decode env "utf-8" raw) as [content|e3];
       [destruct (read_csv env content _ _) as [df|e4]|]|]|]|];
    cbn [fst snd self hist]; (split; [discriminate|]);
    rewrite <- ?app_assoc; rewrite skipn_app_exact; simpl; auto.
Qed.

(** C2, at the input where the code departs from it.  A reader is
    connected and closed again; its session is not open, but the handles
    are still stored.  None of the three fetch methods raises the
    [RuntimeError]: each asks the closed SFTP client for the file, the
    failure of that call is contained, and [None] is returned.  A reader
    that was never connected gets the [RuntimeError] without any call. *)
Theorem fetch_after_close_not_rejected :
  connect (Sim.env_of (Sim.healthy [] "")) Sim.reader_password
  = (Ok tt, Sim.reader_open) /\
  close (Sim.env_of (Sim.healthy [] "")) Sim.reader_open
  = (Ok tt, Sim.reader_closed) /\
  get_csv_file (Sim.env_of (Sim.healthy [] "")) "file.csv" "." None Sim.reader_closed
  = (Ok None,
     mkState (self Sim.reader_closed)
       (hist Sim.reader_closed ++
        [EvFile 3 "./file.csv" "r";
         EvPrint "Error getting file.csv: Socket is closed"])) /\
  get_xml_file_to_string (Sim.env_of (Sim.healthy [] "")) "file.xml" "." Sim.reader_closed
  = (Ok None,
     mkState (self Sim.reader_closed)
       (hist Sim.reader_closed ++
        [EvFile 3 "./file.xml" "r";
         EvPrint "Error getting file.xml: Socket is closed"])) /\
  file_to_string (Sim.env_of (Sim.healthy [] "")) "file.txt" "." None Sim.reader_closed
  = (Ok None,
     mkState (self Sim.reader_closed)
       (hist Sim.reader_closed ++
        [EvFile 3 "./file.txt" "rb";
         EvPrint "Error getting file.txt: Socket is closed"])) /\
  get_csv_file (Sim.env_of (Sim.healthy [] "")) "file.csv" "." None Sim.reader_password
  = (Raise (RuntimeError "Not connected. Call connect() first."), Sim.reader_password).
Proof.
  repeat split.
Qed.

(* ================================================================== *)
(** * Further properties of the reader *)
(* ================================================================== *)

(** ** [connect], call by call *)

Lemma connect_eq (env : Env) (st : State) :
  connect env st =
  if negb (truthy_str (password (self st))) && negb (truthy_str (pem_file (self st)))
  then (Raise missing_credential, st)
  else
    let c := length (hist st) in
    let s1 := with_handles (self st) (Some c) (_sftp (self st)) in
    let h0 := hist st ++ [EvSSHClient; EvSetPolicy c] in
    let tail := fun (h : history) (kw : dict) =>
      match ssh_connect env h c kw with
      | Raise e => (Raise e, mkState s1 (h ++ [EvConnect c kw]))
      | Ok _ =>
          match open_sftp env (h ++ [EvConnect c kw]) c with
          | Raise e => (Raise e, mkState s1 (h ++ [EvConnect c kw; EvOpenSftp c]))
          | Ok _ =>
              (Ok tt,
               mkState (with_handles (self st) (Some c)
                          (Some (length (h ++ [EvConnect c kw]))))
                       (h ++ [EvConnect c kw; EvOpenSftp c]))
          end
      end in
    if truthy_str (pem_file (self st)) then
      match pem_file (self st) with
      | Some path =>
          match from_private_key_file env h0 path with
          | Raise e => (Raise e, mkState s1 (h0 ++ [EvLoadKey path]))
          | Ok k => tail (h0 ++ [EvLoadKey path])
                         (base_kwargs (self st) ++ [("pkey", VKey k)])
          end
      | None => (Raise missing_credential, st)
      end
    else tail h0 (base_kwargs (self st) ++ [("password", of_opt_str (password (self st)))]).
Proof.
  destruct st as [[hn un pf pw pt cl sf] hs].
  unfold connect, auth_kwargs, with_handles. unfold_py.
  cbn [self hist pem_file password hostname username port _client _sftp].
  destruct (negb (truthy_str pw) && negb (truthy_str pf)); [reflexivity|].
  cbv zeta.
  assert (Hpw : forall kw h,
    dict_set "password" (of_opt_str pw)
      (base_kwargs (mkSFTPReader hn un pf pw pt kw h))
    = base_kwargs (mkSFTPReader hn un pf pw pt cl sf) ++ [("password", of_opt_str pw)])
    by reflexivity.
  assert (Hk : forall k kw h,
    dict_set "pkey" (VKey k)
      (base_kwargs (mkSFTPReader hn un pf pw pt kw h))
    = base_kwargs (mkSFTPReader hn un pf pw pt cl sf) ++ [("pkey", VKey k)])
    by reflexivity.
  destruct pf as [path|].
  - destruct (truthy_str (Some path)) eqn:Et.
    + cbn [self hist fst snd]. rewrite <- !app_assoc. cbn [app].
      destruct (from_private_key_file env _ path) as [k|e]; cbn [self hist];
        [|rewrite <- ?app_assoc; reflexivity].
      rewrite Hk. rewrite <- ?app_assoc. cbn [app].
      destruct (ssh_connect env _ _ _) as [[]|e]; cbn [self hist];
        [|rewrite <- ?app_assoc; reflexivity].
      rewrite <- ?app_assoc. cbn [app].
      destruct (open_sftp env _ _) as [[]|e]; cbn [self hist];
        rewrite <- ?app_assoc; reflexivity.
    + cbn [self hist fst snd]. rewrite Hpw. rewrite <- !app_assoc. cbn [app].
      destruct (ssh_connect env _ _ _) as [[]|e]; cbn [self hist];
        [|rewrite <- ?app_assoc; reflexivity].
      rewrite <- ?app_assoc. cbn [app].
      destruct (open_sftp env _ _) as [[]|e]; cbn [self hist];
        rewrite <- ?app_assoc; reflexivity.
  - cbn [truthy_str self hist fst snd]. rewrite Hpw. rewrite <- !app_assoc. cbn [app].
    destruct (ssh_connect env _ _ _) as [[]|e]; cbn [self hist];
      [|rewrite <- ?app_assoc; reflexivity].
    rewrite <- ?app_assoc. cbn [app].
    destruct (open_sftp env _ _) as [[]|e]; cbn [self hist];
      rewrite <- ?app_assoc; reflexivity.
Qed.

Lemma skipn_app_nil {A} (l : list A) : skipn (length l) l = [].
Proof. induction l; simpl; auto. Qed.

(** Case analysis on a run of [connect]: the guard, the branch taken and
    the answers of the library, with the histories brought to the form
    [hist st ++ events]. *)
Ltac connect_cases env st :=
  rewrite ?(connect_eq env st); cbv zeta;
  destruct (negb (truthy_str (password (self st))) &&
            negb (truthy_str (pem_file (self st)))) eqn:?Hguard;
  [ | destruct (truthy_str (pem_file (self st))) eqn:?Hpem;
      [ destruct (pem_file (self st)) as [?path|] eqn:?Epem;
        [ destruct (from_private_key_file env _ _) as [?k|?e] eqn:?Hkey | ] | ] ];
  repeat match goal with
         | |- context [match ssh_connect env ?h ?c ?kw with _ => _ end] =>
             destruct (ssh_connect env h c kw) as [[]|?e] eqn:?Hconn
         | |- context [match open_sftp env ?h ?c with _ => _ end] =>
             destruct (open_sftp env h c) as [[]|?e] eqn:?Hopen
         end;
  cbn [fst snd self hist with_handles _sftp _client
       hostname username port pem_file password];
  rewrite <- ?app_assoc; cbn [app];
  rewrite ?skipn_app_exact, ?skipn_app_nil.

(** X1.  With a password and no key file, [connect] loads no key and calls
    the transport exactly once, with the password under ["password"] and no
    ["pkey"] entry. *)
Theorem connect_password_auth :
  forall (env : Env) (st : State),
    truthy_str (pem_file (self st)) = false ->
    truthy_str (password (self st)) = true ->
    filter is_load_key (new_events (connect env) st) = [] /\
    filter is_connect (new_events (connect env) st)
    = [EvConnect (length (hist st))
         (base_kwargs (self st) ++ [("password", of_opt_str (password (self st)))])] /\
    dict_get "password"
      (base_kwargs (self st) ++ [("password", of_opt_str (password (self st)))])
    = Some (of_opt_str (password (self st))) /\
    dict_get "pkey"
      (base_kwargs (self st) ++ [("password", of_opt_str (password (self st)))])
    = None.
Proof.
  intros env st Hk Hp. unfold new_events.
  connect_cases env st; try congruence.
  all: try (rewrite Hp, Hk in Hguard; discriminate).
  all: repeat split.
Qed.

Lemma connect_password_auth_witness :
  filter is_connect
    (new_events (connect (Sim.env_of (Sim.healthy [] ""))) Sim.reader_password)
  = [EvConnect 0 [("hostname", VStr "host"); ("port", VInt 22);
                  ("username", VStr "user"); ("timeout", VInt 30);
                  ("password", VStr "pass")]].
Proof.
  apply (connect_password_auth (Sim.env_of (Sim.healthy [] "")) Sim.reader_password);
    reflexivity.
Defined.

(** X2.  Whatever the credential, every call of the transport made by
    [connect] is on the client created by this very call and carries the
    host name, the port and the user name of the reader, a timeout of 30,
    and exactly one credential entry, ["pkey"] or ["password"], as its
    fifth and last entry. *)
Theorem connect_kwargs_shape :
  forall (env : Env) (st : State) (c : handle) (kwargs : dict),
    In (EvConnect c kwargs) (new_events (connect env) st) ->
    c = length (hist st) /\
    dict_get "hostname" kwargs = Some (VStr (hostname (self st))) /\
    dict_get "port" kwargs = Some (VInt (port (self st))) /\
    dict_get "username" kwargs = Some (VStr (username (self st))) /\
    dict_get "timeout" kwargs = Some (VInt 30) /\
    (map fst kwargs = ["hostname"; "port"; "username"; "timeout"; "pkey"] \/
     map fst kwargs = ["hostname"; "port"; "username"; "timeout"; "password"]).
Proof.
  intros env st c kw. unfold new_events.
  connect_cases env st; simpl; intros H;
    repeat (destruct H as [H|H]; [try discriminate|]); try contradiction;
    inversion H; subst; repeat split; auto.
Qed.

Lemma connect_kwargs_shape_witness :
  dict_get "timeout"
    [("hostname", VStr "host"); ("port", VInt 22); ("username", VStr "user");
     ("timeout", VInt 30); ("pkey", VKey (RSAKey 2))] = Some (VInt 30).
Proof.
  apply (connect_kwargs_shape (Sim.env_of (Sim.healthy [] "")) Sim.reader_pem 0
           [("hostname", VStr "host"); ("port", VInt 22); ("username", VStr "user");
            ("timeout", VInt 30); ("pkey", VKey (RSAKey 2))]).
  vm_compute. right. right. right. left. reflexivity.
Defined.

(** X3.  When the key file is set and cannot be loaded, [connect] raises
    the error of the loader and never calls the transport: there is no
    fall back to the password, whether one is set or not. *)
Theorem connect_key_failure_no_fallback :
  forall (env : Env) (st : State) (path : string) (e : exn),
    pem_file (self st) = Some path ->
    truthy_str (Some path) = true ->
    from_private_key_file env
      (hist st ++ [EvSSHClient; EvSetPolicy (length (hist st))]) path = Raise e ->
    fst (connect env st) = Raise e /\
    new_events (connect env) st
    = [EvSSHClient; EvSetPolicy (length (hist st)); EvLoadKey path] /\
    _sftp (self (snd (connect env st))) = _sftp (self st).
Proof.
  intros env st path e Hp Ht Hl. unfold new_events.
  rewrite (connect_eq env st). cbv zeta.
  rewrite Hp, Ht, andb_false_r, Hl.
  cbn [fst snd self hist with_handles _sftp].
  rewrite <- ?app_assoc. cbn [app]. rewrite skipn_app_exact.
  repeat split.
Qed.

Lemma connect_key_failure_no_fallback_witness :
  fst (connect
         (mkEnv (fun _ _ => Raise Sim.boom) (fun _ _ _ => Ok tt) (fun _ _ => Ok tt)
                (fun _ _ => Ok tt) (fun _ _ => Ok tt) (fun _ _ _ => Ok [])
                (fun _ _ _ _ => Ok tt) (fun _ _ => Ok []) (fun _ _ => Ok tt)
                (fun _ raw => Ok (string_of_list_byte raw)) (fun _ => None)
                Sim.read_csv)
         Sim.reader_both)
  = Raise Sim.boom.
Proof.
  apply (connect_key_failure_no_fallback _ Sim.reader_both "/path/to/key.pem" Sim.boom);
    reflexivity.
Defined.

(** X4.  A [connect] that raises never stores an SFTP handle: the one the
    reader held, if any, is still there, and the connection parameters are
    untouched.  So on a reader that has never been connected the fetch
    methods keep raising [RuntimeError] after a failed [connect]. *)
Theorem connect_failure_keeps_sftp :
  forall (env : Env) (st : State) (e : exn),
    fst (connect env st) = Raise e ->
    _sftp (self (snd (connect env st))) = _sftp (self st) /\
    with_handles (self (snd (connect env st))) None None
    = with_handles (self st) None None /\
    (_sftp (self st) = None ->
     forall file_name remote_path column_names,
       get_csv_file env file_name remote_path column_names (snd (connect env st))
       = (Raise not_connected, snd (connect env st))).
Proof.
  intros env st e.
  assert (G : forall st', _sftp (self st') = _sftp (self st) ->
              _sftp (self st) = None ->
              forall fn rp cols,
                get_csv_file env fn rp cols st' = (Raise not_connected, st')).
  { intros st' Hs Hn fn rp cols. rewrite Hn in Hs.
    unfold get_csv_file. unfold_py. rewrite Hs. reflexivity. }
  revert G. destruct st as [[hn un pf pw pt cl sf] hs].
  connect_cases env (mkState (mkSFTPReader hn un pf pw pt cl sf) hs);
    intros G H; try discriminate; repeat split; auto.
Qed.

Lemma connect_failure_keeps_sftp_witness :
  get_csv_file (Sim.env_of Sim.no_sftp_subsystem) "file.csv" "." None
    (snd (connect (Sim.env_of Sim.no_sftp_subsystem) Sim.reader_password))
  = (Raise not_connected,
     snd (connect (Sim.env_of Sim.no_sftp_subsystem) Sim.reader_password)).
Proof.
  apply (connect_failure_keeps_sftp (Sim.env_of Sim.no_sftp_subsystem)
           Sim.reader_password Sim.boom); reflexivity.
Defined.

Lemma nth_error_app_plus {A} (l l' : list A) (n : nat) (x : A) :
  nth_error l' n = Some x -> nth_error (l ++ l') (length l + n) = Some x.
Proof.
  intros H. rewrite nth_error_app2 by lia.
  replace (length l + n - length l) with n by lia. exact H.
Qed.

(** X5.  A [connect] that succeeds stores two handles made by this very
    call, hence different from every handle made before; it leaves the
    connection parameters as they are, ends with the opening of the SFTP
    subsystem, and makes no close call: a session the reader held before
    is dropped without being closed. *)
Theorem connect_success_fresh_handles :
  forall (env : Env) (st : State),
    fst (connect env st) = Ok tt ->
    exists sftp,
      self (snd (connect env st))
      = with_handles (self st) (Some (length (hist st))) (Some sftp) /\
      length (hist st) < sftp /\
      S sftp = length (hist (snd (connect env st))) /\
      nth_error (hist (snd (connect env st))) sftp
      = Some (EvOpenSftp (length (hist st))) /\
      nth_error (hist (snd (connect env st))) (length (hist st)) = Some EvSSHClient /\
      filter is_close_event (new_events (connect env) st) = [].
Proof.
  intros env st. unfold new_events.
  destruct st as [[hn un pf pw pt cl sf] hs].
  connect_cases env (mkState (mkSFTPReader hn un pf pw pt cl sf) hs);
    intros H; try discriminate;
    eexists; (split; [reflexivity|]);
    rewrite ?List.length_app; cbn [Datatypes.length];
    (split; [lia|]); (split; [lia|]);
    (split; [apply nth_error_app_plus; reflexivity|]);
    (split; [rewrite nth_error_app2 by lia; rewrite Nat.sub_diag; reflexivity|]);
    reflexivity.
Qed.

Lemma connect_success_fresh_handles_witness :
  exists sftp,
    self (snd (connect (Sim.env_of (Sim.healthy [] "")) Sim.reader_open))
    = with_handles (self Sim.reader_open) (Some 4) (Some sftp) /\
    4 < sftp.
Proof.
  destruct (connect_success_fresh_handles (Sim.env_of (Sim.healthy [] ""))
              Sim.reader_open eq_refl) as (sftp & H1 & H2 & _).
  exists sftp. split; [exact H1|exact H2].
Defined.

(** The state after a successful [connect], for the proofs below. *)
Lemma connect_ok_state (env : Env) (st st1 : State) :
  connect env st = (Ok tt, st1) ->
  exists sftp new,
    self st1 = with_handles (self st) (Some (length (hist st))) (Some sftp) /\
    length (hist st) < sftp /\
    hist st1 = hist st ++ new /\
    filter is_close_event new = [].
Proof.
  destruct st as [[hn un pf pw pt cl sf] hs].
  connect_cases env (mkState (mkSFTPReader hn un pf pw pt cl sf) hs);
    intros H; try discriminate; inversion H; subst; clear H;
    cbn [self hist]; do 2 eexists;
    (split; [reflexivity|]);
    rewrite ?List.length_app; cbn [Datatypes.length];
    (split; [lia|]); (split; [reflexivity|]); reflexivity.
Qed.

(** ** [close], again *)

(** X6.  [close] does not forget the handles it has closed.  A second
    [close] therefore calls [close()] on the same SFTP client again, and
    when both runs return normally it repeats exactly the calls of the
    first. *)
Theorem close_again_repeats_calls :
  forall (env : Env) (st : State),
    self (snd (close env (snd (close env st)))) = self st /\
    (forall h, _sftp (self st) = Some h ->
       In (EvSftpClose h) (new_events (close env) (snd (close env st)))) /\
    (fst (close env st) = Ok tt ->
     fst (close env (snd (close env st))) = Ok tt ->
     new_events (close env) (snd (close env st)) = new_events (close env) st).
Proof.
  intros env st. split; [|split].
  - rewrite !close_keeps_self. reflexivity.
  - intros h Hs. unfold new_events.
    rewrite (close_eq env (snd (close env st))).
    rewrite close_keeps_self, Hs.
    destruct (sftp_close env _ h) as [[]|e];
      [destruct (_client (self st)) as [c|]|];
      cbn [snd hist]; rewrite skipn_app_exact; simpl; auto.
  - unfold new_events.
    rewrite (close_eq env (snd (close env st))).
    rewrite close_keeps_self.
    rewrite (close_eq env st).
    destruct (_sftp (self st)) as [h|]; destruct (_client (self st)) as [c|].
    + destruct (sftp_close env (hist st) h) as [[]|e]; cbn [fst snd hist];
        [|discriminate].
      intros _. destruct (sftp_close env _ h) as [[]|e]; cbn [fst snd hist];
        [|discriminate].
      intros _. rewrite !skipn_app_exact. reflexivity.
    + destruct (sftp_close env (hist st) h) as [[]|e]; cbn [fst snd hist];
        [|discriminate].
      intros _. destruct (sftp_close env _ h) as [[]|e]; cbn [fst snd hist];
        [|discriminate].
      intros _. rewrite !skipn_app_exact. reflexivity.
    + cbn [fst snd hist]. intros _ _. rewrite !skipn_app_exact. reflexivity.
    + cbn [fst snd hist]. intros _ _. reflexivity.
Qed.

Lemma close_again_repeats_calls_witness :
  In (EvSftpClose 3)
     (new_events (close (Sim.env_of (Sim.healthy [] "")))
                 (snd (close (Sim.env_of (Sim.healthy [] "")) Sim.reader_open))).
Proof.
  apply (proj1 (proj2 (close_again_repeats_calls
                         (Sim.env_of (Sim.healthy [] "")) Sim.reader_open))).
  reflexivity.
Defined.

(** ** [get_files], again *)

(** X7.  When [connect] raises, [get_files] raises the same exception and
    stops where [connect] stopped: nothing is listed and no close call is
    made. *)
Theorem get_files_connect_failure :
  forall (env : Env) (remote_path file_pattern : string) (st : State) (e : exn),
    fst (connect env st) = Raise e ->
    get_files env remote_path file_pattern st = (Raise e, snd (connect env st)) /\
    filter is_close_event (new_events (get_files env remote_path file_pattern) st) = [] /\
    (truthy_str (password (self st)) = false ->
     truthy_str (pem_file (self st)) = false ->
     get_files env remote_path file_pattern st = (Raise missing_credential, st)).
Proof.
  intros env rp pat st e He.
  assert (Hg : get_files env rp pat st = (Raise e, snd (connect env st))).
  { unfold get_files, bind.
    destruct (connect env st) as [[[]|e0] st1]; cbn [fst snd] in *;
      [discriminate|congruence]. }
  split; [exact Hg|]. split.
  - unfold new_events. rewrite Hg. cbn [snd]. revert He.
    destruct st as [[hn un pf pw pt cl sf] hs].
    connect_cases env (mkState (mkSFTPReader hn un pf pw pt cl sf) hs);
      intros H; try discriminate; reflexivity.
  - intros Hp Hk. unfold get_files, bind.
    rewrite (connect_eq env st), Hp, Hk. reflexivity.
Qed.

Lemma get_files_connect_failure_witness :
  get_files (Sim.env_of (Sim.healthy ["a.csv"] "")) "." "*" Sim.reader_bare
  = (Raise missing_credential, Sim.reader_bare).
Proof.
  apply (proj2 (proj2 (get_files_connect_failure
                         (Sim.env_of (Sim.healthy ["a.csv"] "")) "." "*"
                         Sim.reader_bare missing_credential eq_refl)));
    reflexivity.
Defined.

(** X8.  A failure of the teardown takes the place of the outcome of the
    listing: when [connect] has succeeded and one of the two close calls
    raises, [get_files] raises that exception, also when the listing had
    succeeded, and the names are lost. *)
Theorem get_files_teardown_failure_masks_listing :
  forall (env : Env) (remote_path file_pattern : string)
         (st st1 : State) (h c : handle) (e : exn),
    connect env st = (Ok tt, st1) ->
    _sftp (self st1) = Some h ->
    _client (self st1) = Some c ->
    (sftp_close env (hist st1 ++ [EvListdir h remote_path]) h = Raise e ->
     fst (get_files env remote_path file_pattern st) = Raise e) /\
    (sftp_close env (hist st1 ++ [EvListdir h remote_path]) h = Ok tt ->
     client_close env (hist st1 ++ [EvListdir h remote_path; EvSftpClose h]) c
     = Raise e ->
     fst (get_files env remote_path file_pattern st) = Raise e).
Proof.
  intros env rp pat st st1 h c e Hc Hs Hcl.
  rewrite (get_files_eq env rp pat st st1 h c Hc Hs Hcl). split.
  - intros ->. reflexivity.
  - intros -> ->. reflexivity.
Qed.

Lemma get_files_teardown_failure_masks_listing_witness :
  fst (get_files (Sim.env_of Sim.sftp_close_fails) "." "*" Sim.reader_password)
  = Raise Sim.boom.
Proof.
  apply (proj1 (get_files_teardown_failure_masks_listing
                  (Sim.env_of Sim.sftp_close_fails) "." "*"
                  Sim.reader_password Sim.reader_open 3 0 Sim.boom
                  eq_refl eq_refl eq_refl)).
  reflexivity.
Defined.

(** [get_csv_file] on a reader that holds an SFTP handle does not raise
    the [RuntimeError] and asks that handle for the file. *)
Lemma get_csv_file_calls_server (env : Env) (st : State) (sftp : handle)
    (file_name remote_path : string) (column_names : option (list string)) :
  _sftp (self st) = Some sftp ->
  fst (get_csv_file env file_name remote_path column_names st)
    <> Raise not_connected /\
  In (EvFile sftp (remote_file_path remote_path file_name) "r")
     (new_events (get_csv_file env file_name remote_path column_names) st).
Proof.
  intros Hs. unfold new_events.
  rewrite (get_csv_file_eq env st sftp file_name remote_path column_names Hs).
  rewrite read_text_eq.
  destruct (sftp_file env _ sftp _ "r") as [[]|e0];
    [destruct (file_close env _ _) as [[]|e1];
     [destruct (file_read env _ _) as [raw|e2];
      [destruct (bytes_decode env "utf-8" raw) as [content|e3];
       [destruct (read_csv env content _ _) as [df|e4]|]|]|]|];
    cbn [fst snd self hist]; (split; [discriminate|]);
    rewrite <- ?app_assoc; rewrite skipn_app_exact; simpl; auto.
Qed.

(** X9.  [get_files] leaves the reader holding the handles of the session
    it has just closed.  A fetch that follows it without a new [connect]
    is therefore not rejected with the [RuntimeError]: it asks the closed
    SFTP client for the file. *)
Theorem fetch_after_get_files_uses_closed_session :
  forall (env : Env) (remote_path file_pattern : string) (st st1 : State),
    connect env st = (Ok tt, st1) ->
    exists h,
      _sftp (self (snd (get_files env remote_path file_pattern st))) = Some h /\
      In (EvSftpClose h) (hist (snd (get_files env remote_path file_pattern st))) /\
      forall file_name path column_names,
        fst (get_csv_file env file_name path column_names
               (snd (get_files env remote_path file_pattern st)))
          <> Raise not_connected /\
        In (EvFile h (remote_file_path path file_name) "r")
           (new_events (get_csv_file env file_name path column_names)
                       (snd (get_files env remote_path file_pattern st))).
Proof.
  intros env rp pat st st1 Hc.
  destruct (connect_ok_handles env st st1 Hc) as (c & h & new & Hcl & Hs & _).
  exists h.
  assert (Hs2 : _sftp (self (snd (get_files env rp pat st))) = Some h).
  { rewrite (get_files_eq env rp pat st st1 h c Hc Hs Hcl).
    destruct (sftp_close env _ h) as [[]|e]; exact Hs. }
  split; [exact Hs2|]. split.
  - rewrite (get_files_eq env rp pat st st1 h c Hc Hs Hcl).
    destruct (sftp_close env _ h) as [[]|e]; cbn [snd hist];
      apply in_or_app; right; simpl; auto.
  - intros fn path cols.
    apply (get_csv_file_calls_server env _ h fn path cols Hs2).
Qed.

Lemma fetch_after_get_files_uses_closed_session_witness :
  exists h,
    _sftp (self (snd (get_files (Sim.env_of (Sim.healthy ["a.csv"] "")) "." "*"
                        Sim.reader_password))) = Some h /\
    In (EvSftpClose h)
       (hist (snd (get_files (Sim.env_of (Sim.healthy ["a.csv"] "")) "." "*"
                     Sim.reader_password))).
Proof.
  destruct (fetch_after_get_files_uses_closed_session
              (Sim.env_of (Sim.healthy ["a.csv"] "")) "." "*"
              Sim.reader_password Sim.reader_open eq_refl) as (h & H1 & H2 & _).
  exists h. split; [exact H1|exact H2].
Defined.

(** X10.  [get_files] on a reader that already holds an open session opens
    a second one and closes that one: no close call is made on the handles
    the reader held, and the reader ends up holding the SFTP client of the
    new, closed session instead of its own. *)
Theorem get_files_abandons_open_session :
  forall (env : Env) (remote_path file_pattern : string) (st st1 : State)
         (h0 c0 : handle),
    handles_known st ->
    _sftp (self st) = Some h0 ->
    _client (self st) = Some c0 ->
    connect env st = (Ok tt, st1) ->
    ~ In (EvSftpClose h0) (new_events (get_files env remote_path file_pattern) st) /\
    ~ In (EvClientClose c0) (new_events (get_files env remote_path file_pattern) st) /\
    exists h,
      _sftp (self (snd (get_files env remote_path file_pattern st))) = Some h /\
      h <> h0 /\
      In (EvSftpClose h) (new_events (get_files env remote_path file_pattern) st).
Proof.
  intros env rp pat st st1 h0 c0 [Kh Kc] Hh0 Hc0 Hc.
  destruct (connect_ok_state env st st1 Hc) as (h & new & Hself & Hlt & Hhist & Hnc).
  assert (Hs : _sftp (self st1) = Some h) by (rewrite Hself; reflexivity).
  assert (Hcl : _client (self st1) = Some (length (hist st)))
    by (rewrite Hself; reflexivity).
  pose proof (Kh h0 Hh0) as Lh. pose proof (Kc c0 Hc0) as Lc.
  assert (Hnew : forall ev, is_close_event ev = true -> ~ In ev new).
  { intros ev Hev Hin.
    assert (Hf : In ev (filter is_close_event new)) by (apply filter_In; auto).
    rewrite Hnc in Hf. exact Hf. }
  unfold new_events.
  rewrite (get_files_eq env rp pat st st1 h (length (hist st)) Hc Hs Hcl).
  rewrite Hhist.
  destruct (sftp_close env _ h) as [[]|e]; cbn [snd hist self];
    rewrite <- ?app_assoc; rewrite skipn_app_exact.
  - repeat split.
    + intros Hin. apply in_app_or in Hin. destruct Hin as [Hin|Hin].
      * revert Hin. apply Hnew. reflexivity.
      * simpl in Hin. destruct Hin as [H|[H|[H|[]]]]; try discriminate.
        inversion H. lia.
    + intros Hin. apply in_app_or in Hin. destruct Hin as [Hin|Hin].
      * revert Hin. apply Hnew. reflexivity.
      * simpl in Hin. destruct Hin as [H|[H|[H|[]]]]; try discriminate.
        inversion H. lia.
    + exists h. repeat split; [exact Hs|lia|].
      apply in_or_app. right. simpl. auto.
  - repeat split.
    + intros Hin. apply in_app_or in Hin. destruct Hin as [Hin|Hin].
      * revert Hin. apply Hnew. reflexivity.
      * simpl in Hin. destruct Hin as [H|[H|[]]]; try discriminate.
        inversion H. lia.
    + intros Hin. apply in_app_or in Hin. destruct Hin as [Hin|Hin].
      * revert Hin. apply Hnew. reflexivity.
      * simpl in Hin. destruct Hin as [H|[H|[]]]; try discriminate.
    + exists h. repeat split; [exact Hs|lia|].
      apply in_or_app. right. simpl. auto.
Qed.

Lemma get_files_abandons_open_session_witness :
  ~ In (EvSftpClose 3)
       (new_events (get_files (Sim.env_of (Sim.healthy ["a.csv"] "")) "." "*")
                   Sim.reader_open).
Proof.
  apply (get_files_abandons_open_session
           (Sim.env_of (Sim.healthy ["a.csv"] "")) "." "*" Sim.reader_open
           (snd (connect (Sim.env_of (Sim.healthy ["a.csv"] "")) Sim.reader_open))
           3 0).
  - split; intros x H; inversion H; subst; simpl; lia.
  - reflexivity.
  - reflexivity.
  - reflexivity.
Defined.

(** ** The fetch methods, again *)

(** Opening, reading and closing a file in binary mode, call by call. *)
Lemma read_bytes_eq (env : Env) (sftp : handle) (path : string) (st : State) :
  with_file env sftp path "rb"
    (fun file => call (EvRead file) (fun hs => file_read env hs file)) st =
  match sftp_file env (hist st) sftp path "rb" with
  | Raise e => (Raise e, mkState (self st) (hist st ++ [EvFile sftp path "rb"]))
  | Ok _ =>
      match file_close env
              (hist st ++ [EvFile sftp path "rb"; EvRead (length (hist st))])
              (length (hist st)) with
      | Raise e =>
          (Raise e,
           mkState (self st)
             (hist st ++ [EvFile sftp path "rb"; EvRead (length (hist st));
                          EvFileClose (length (hist st))]))
      | Ok _ =>
          (file_read env (hist st ++ [EvFile sftp path "rb"]) (length (hist st)),
           mkState (self st)
             (hist st ++ [EvFile sftp path "rb"; EvRead (length (hist st));
                          EvFileClose (length (hist st))]))
      end
  end.
Proof.
  destruct st as [s hs]. unfold with_file. unfold_py. cbn [self hist].
  destruct (sftp_file env hs sftp path "rb") as [[]|e]; [|reflexivity].
  cbn [self hist]. rewrite <- !app_assoc. cbn [app].
  destruct (file_read env _ _) as [raw|e1];
    destruct (file_close env _ _) as [[]|e3]; reflexivity.
Qed.

Lemma get_xml_file_to_string_run (env : Env) (st : State) (sftp : handle)
    (file_name remote_path : string) :
  _sftp (self st) = Some sftp ->
  get_xml_file_to_string env file_name remote_path st =
  match with_file env sftp (remote_file_path remote_path file_name) "r"
          (fun file =>
             raw <- call (EvRead file) (fun hs => file_read env hs file) ;;
             decode env raw (Some "utf-8")) st with
  | (Raise e, st1) =>
      (Ok None, mkState (self st1) (hist st1 ++ [EvPrint (diagnostic file_name e)]))
  | (Ok content, st1) => (Ok (Some content), st1)
  end.
Proof.
  intros Hs. rewrite (get_xml_file_to_string_eq env st sftp file_name remote_path Hs).
  unfold try_except, get_xml_file_to_string_body, bind at 1.
  destruct (with_file _ _ _ _ _ st) as [[content|e] st1]; reflexivity.
Qed.

Lemma file_to_string_run (env : Env) (st : State) (sftp : handle)
    (file_name remote_path : string) (encoding : option string) :
  _sftp (self st) = Some sftp ->
  file_to_string env file_name remote_path encoding st =
  match with_file env sftp (remote_file_path remote_path file_name) "rb"
          (fun file => call (EvRead file) (fun hs => file_read env hs file)) st with
  | (Raise e, st1) =>
      (Ok None, mkState (self st1) (hist st1 ++ [EvPrint (diagnostic file_name e)]))
  | (Ok raw, st1) =>
      match encoding with
      | Some enc =>
          match bytes_decode env enc raw with
          | Ok text => (Ok (Some text), st1)
          | Raise e =>
              (Ok None,
               mkState (self st1) (hist st1 ++ [EvPrint (diagnostic file_name e)]))
          end
      | None =>
          match chardet_detect env raw with
          | Some enc =>
              match bytes_decode env enc raw with
              | Ok text =>
                  (Ok (Some text), mkState (self st1) (hist st1 ++ [EvDetect raw]))
              | Raise e =>
                  (Ok None,
                   mkState (self st1)
                     (hist st1 ++ [EvDetect raw; EvPrint (diagnostic file_name e)]))
              end
          | None =>
              (Ok None,
               mkState (self st1)
                 (hist st1 ++
                  [EvDetect raw;
                   EvPrint (diagnostic file_name
                              (TypeError "decode() argument 'encoding' must be str, not None"))]))
          end
      end
  end.
Proof.
  intros Hs. rewrite (file_to_string_eq env st sftp file_name remote_path encoding Hs).
  unfold try_except, file_to_string_body, bind at 1.
  destruct (with_file _ _ _ _ _ st) as [[raw|e] [s1 h1]]; [|reflexivity].
  destruct encoding as [enc|]; unfold decode, fail_soft; unfold_py; cbn [self hist].
  - destruct (bytes_decode env enc raw) as [text|e]; reflexivity.
  - destruct (chardet_detect env raw) as [enc|]; cbn [self hist].
    + destruct (bytes_decode env enc raw) as [text|e]; cbn [self hist];
        rewrite <- ?app_assoc; reflexivity.
    + rewrite <- ?app_assoc. reflexivity.
Qed.

(** X11.  [file_to_string] on a readable file: with an encoding given, the
    bytes are decoded with it and the detector is not called; with none
    given, the detector is called once on the bytes read, and they are
    decoded with what it names, or [None] is returned if it names nothing.
    A failed decoding gives [None] in both cases. *)
Theorem file_to_string_encoding_choice :
  forall (env : Env) (st : State) (sftp : handle)
         (file_name remote_path : string) (raw : bytes),
    _sftp (self st) = Some sftp ->
    readable_bytes env st sftp (remote_file_path remote_path file_name) raw ->
    (forall enc,
        fst (file_to_string env file_name remote_path (Some enc) st)
        = match bytes_decode env enc raw with
          | Ok text => Ok (Some text)
          | Raise _ => Ok None
          end /\
        filter is_detect
          (new_events (file_to_string env file_name remote_path (Some enc)) st) = []) /\
    fst (file_to_string env file_name remote_path None st)
    = match chardet_detect env raw with
      | Some enc =>
          match bytes_decode env enc raw with
          | Ok text => Ok (Some text)
          | Raise _ => Ok None
          end
      | None => Ok None
      end /\
    filter is_detect (new_events (file_to_string env file_name remote_path None) st)
    = [EvDetect raw].
Proof.
  intros env st sftp fn rp raw Hs (Ho & Hr & Hc). unfold new_events.
  split; [intros enc|];
    rewrite (file_to_string_run env st sftp fn rp _ Hs);
    rewrite read_bytes_eq, Ho, Hc, Hr.
  - destruct (bytes_decode env enc raw) as [text|e]; cbn [fst snd self hist];
      rewrite <- ?app_assoc; rewrite skipn_app_exact; split; reflexivity.
  - destruct (chardet_detect env raw) as [enc|];
      [destruct (bytes_decode env enc raw) as [text|e]|];
      cbn [fst snd self hist];
      rewrite <- ?app_assoc; rewrite skipn_app_exact; split; reflexivity.
Qed.

Lemma file_to_string_encoding_choice_witness :
  fst (file_to_string (Sim.env_of (Sim.healthy [] "hello world"))
         "report.txt" "." None Sim.connected_reader)
  = Ok (Some "hello world").
Proof.
  apply (proj2 (file_to_string_encoding_choice
                  (Sim.env_of (Sim.healthy [] "hello world")) Sim.connected_reader 0
                  "report.txt" "." (list_byte_of_string "hello world")
                  eq_refl (conj eq_refl (conj eq_refl eq_refl)))).
Defined.

(** X12.  [get_xml_file_to_string] on a file that is readable and decodes
    as UTF-8 returns the decoded text as it is; it opens the file in mode
    ["r"], reads it, closes it, and does nothing else. *)
Theorem get_xml_file_to_string_returns_text :
  forall (env : Env) (st : State) (sftp : handle)
         (file_name remote_path content : string),
    _sftp (self st) = Some sftp ->
    readable_utf8 env st sftp (remote_file_path remote_path file_name) content ->
    get_xml_file_to_string env file_name remote_path st
    = (Ok (Some content),
       mkState (self st)
         (hist st ++ [EvFile sftp (remote_file_path remote_path file_name) "r";
                      EvRead (length (hist st)); EvFileClose (length (hist st))])).
Proof.
  intros env st sftp fn rp content Hs (Ho & raw & Hr & Hd & Hc).
  rewrite (get_xml_file_to_string_run env st sftp fn rp Hs).
  rewrite read_text_eq, Ho, Hc, Hr, Hd. reflexivity.
Qed.

Lemma get_xml_file_to_string_returns_text_witness :
  fst (get_xml_file_to_string (Sim.env_of (Sim.healthy [] "<root><item>1</item></root>"))
         "feed.xml" "/exports" Sim.connected_reader)
  = Ok (Some "<root><item>1</item></root>").
Proof.
  rewrite (get_xml_file_to_string_returns_text
             (Sim.env_of (Sim.healthy [] "<root><item>1</item></root>"))
             Sim.connected_reader 0 "feed.xml" "/exports"
             "<root><item>1</item></root>" eq_refl).
  - reflexivity.
  - split; [reflexivity|].
    exists (list_byte_of_string "<root><item>1</item></root>"). repeat split.
Defined.

(** All the ways a fetch can go once the reader holds an SFTP handle. *)
Ltac fetch_cases env :=
  rewrite ?read_text_eq, ?read_bytes_eq;
  repeat match goal with
         | |- context [match sftp_file env ?h ?s ?p ?m with _ => _ end] =>
             destruct (sftp_file env h s p m) as [[]|?e]
         | |- context [match file_close env ?h ?f with _ => _ end] =>
             destruct (file_close env h f) as [[]|?e]
         | |- context [match file_read env ?h ?f with _ => _ end] =>
             destruct (file_read env h f) as [?raw|?e]
         | |- context [match bytes_decode env ?c ?r with _ => _ end] =>
             destruct (bytes_decode env c r) as [?text|?e]
         | |- context [match chardet_detect env ?r with _ => _ end] =>
             destruct (chardet_detect env r) as [?enc|]
         | |- context [match read_csv env ?c ?h ?n with _ => _ end] =>
             destruct (read_csv env c h n) as [?df|?e]
         | |- context [match ?o with Some _ => _ | None => _ end] =>
             is_var o; destruct o
         end;
  cbn [fst snd self hist];
  rewrite <- ?app_assoc; cbn [app];
  rewrite ?skipn_app_exact, ?skipn_app_nil.

(** X13.  Once the file has been opened, every fetch method reads it and
    closes it on the way out of the [with] block, whether or not the read
    succeeded (and, for [get_csv_file] and [get_xml_file_to_string],
    whether or not the decoding inside the block succeeded).  The calls of
    the method are the opening, the read and the close of that file, in
    this order, followed by calls that are not about a file: the parsing,
    the detection, the diagnostic.  The file is opened, read and closed
    once. *)
Theorem fetch_always_closes_file :
  forall (env : Env) (st : State) (sftp : handle)
         (file_name remote_path : string)
         (column_names : option (list string)) (encoding : option string),
    _sftp (self st) = Some sftp ->
    (sftp_file env (hist st) sftp (remote_file_path remote_path file_name) "r" = Ok tt ->
     (exists rest,
         new_events (get_csv_file env file_name remote_path column_names) st
         = EvFile sftp (remote_file_path remote_path file_name) "r"
           :: EvRead (length (hist st)) :: EvFileClose (length (hist st)) :: rest /\
         filter is_file_event rest = []) /\
     (exists rest,
         new_events (get_xml_file_to_string env file_name remote_path) st
         = EvFile sftp (remote_file_path remote_path file_name) "r"
           :: EvRead (length (hist st)) :: EvFileClose (length (hist st)) :: rest /\
         filter is_file_event rest = [])) /\
    (sftp_file env (hist st) sftp (remote_file_path remote_path file_name) "rb" = Ok tt ->
     exists rest,
       new_events (file_to_string env file_name remote_path encoding) st
       = EvFile sftp (remote_file_path remote_path file_name) "rb"
         :: EvRead (length (hist st)) :: EvFileClose (length (hist st)) :: rest /\
       filter is_file_event rest = []).
Proof.
  intros env st sftp fn rp cols enc Hs. unfold new_events. split; [intros Ho; split|intros Ho].
  - rewrite (get_csv_file_eq env st sftp fn rp cols Hs).
    rewrite read_text_eq, Ho. fetch_cases env; eexists; split; reflexivity.
  - rewrite (get_xml_file_to_string_run env st sftp fn rp Hs).
    rewrite read_text_eq, Ho. fetch_cases env; eexists; split; reflexivity.
  - rewrite (file_to_string_run env st sftp fn rp enc Hs).
    rewrite read_bytes_eq, Ho. fetch_cases env; eexists; split; reflexivity.
Qed.

Lemma fetch_always_closes_file_witness :
  exists rest,
    new_events (get_csv_file (Sim.env_of (Sim.healthy [] Sim.two_lines))
                  "data.csv" "." None) Sim.connected_reader
    = EvFile 0 "./data.csv" "r" :: EvRead 0 :: EvFileClose 0 :: rest /\
    filter is_file_event rest = [].
Proof.
  apply (proj1 (fetch_always_closes_file
                  (Sim.env_of (Sim.healthy [] Sim.two_lines)) Sim.connected_reader 0
                  "data.csv" "." None None eq_refl)).
  reflexivity.
Defined.

(** X14.  No fetch method touches the session or the reader: whatever
    happens, the reader is afterwards as it was, handles included, and no
    client has been created, connected, opened or closed. *)
Theorem fetch_keeps_reader_and_session :
  forall (env : Env) (st : State) (file_name remote_path : string)
         (column_names : option (list string)) (encoding : option string),
    (self (snd (get_csv_file env file_name remote_path column_names st)) = self st /\
     filter is_session_event
       (new_events (get_csv_file env file_name remote_path column_names) st) = []) /\
    (self (snd (get_xml_file_to_string env file_name remote_path st)) = self st /\
     filter is_session_event
       (new_events (get_xml_file_to_string env file_name remote_path) st) = []) /\
    (self (snd (file_to_string env file_name remote_path encoding st)) = self st /\
     filter is_session_event
       (new_events (file_to_string env file_name remote_path encoding) st) = []).
Proof.
  intros env st fn rp cols enc. unfold new_events.
  destruct (_sftp (self st)) as [sftp|] eqn:Hs.
  - rewrite (get_csv_file_eq env st sftp fn rp cols Hs).
    rewrite (get_xml_file_to_string_run env st sftp fn rp Hs).
    rewrite (file_to_string_run env st sftp fn rp enc Hs).
    split; [|split]; fetch_cases env; split; reflexivity.
  - destruct (fetch_without_handle env st fn rp cols enc Hs) as (-> & -> & ->).
    cbn [snd]. rewrite skipn_app_nil. repeat split.
Qed.

(** X15.  A reader as the constructor makes it holds no handle: whatever
    its parameters, the three fetch methods raise the [RuntimeError]
    without calling anything, and [close] returns without calling
    anything. *)
Theorem new_reader_is_disconnected :
  forall (env : Env) (hostname username : string) (pem_file password : option string)
         (port : Z) (h : history) (file_name remote_path : string)
         (column_names : option (list string)) (encoding : option string),
    get_csv_file env file_name remote_path column_names
      (mkState (new_reader hostname username pem_file password port) h)
    = (Raise (RuntimeError "Not connected. Call connect() first."),
       mkState (new_reader hostname username pem_file password port) h) /\
    get_xml_file_to_string env file_name remote_path
      (mkState (new_reader hostname username pem_file password port) h)
    = (Raise (RuntimeError "Not connected. Call connect() first."),
       mkState (new_reader hostname username pem_file password port) h) /\
    file_to_string env file_name remote_path encoding
      (mkState (new_reader hostname username pem_file password port) h)
    = (Raise (RuntimeError "Not connected. Call connect() first."),
       mkState (new_reader hostname username pem_file password port) h) /\
    close env (mkState (new_reader hostname username pem_file password port) h)
    = (Ok tt, mkState (new_reader hostname username pem_file password port) h).
Proof.
  intros. repeat split.
Qed.

(** ** The path join, again *)

Lemma rstrip_slash_slashes (n : nat) : rstrip_slash (slashes n) = EmptyString.
Proof.
  induction n as [|n IH]; simpl; [reflexivity|]. rewrite IH. reflexivity.
Qed.

Lemma rstrip_slash_app_slashes (s : string) (n : nat) :
  rstrip_slash (s ++ slashes n) = rstrip_slash s.
Proof.
  induction s as [|c s IH]; simpl.
  - apply rstrip_slash_slashes.
  - rewrite IH. reflexivity.
Qed.

(** X16.  Slashes at the end of the directory never change the path that
    is requested: any number of them may be added, and each fetch method
    then runs exactly as it does without them. *)
Theorem remote_file_path_ignores_trailing_slashes :
  forall (env : Env) (st : State) (remote_path file_name : string) (n : nat)
         (column_names : option (list string)) (encoding : option string),
    remote_file_path (remote_path ++ slashes n) file_name
    = remote_file_path remote_path file_name /\
    get_csv_file env file_name (remote_path ++ slashes n) column_names st
    = get_csv_file env file_name remote_path column_names st /\
    get_xml_file_to_string env file_name (remote_path ++ slashes n) st
    = get_xml_file_to_string env file_name remote_path st /\
    file_to_string env file_name (remote_path ++ slashes n) encoding st
    = file_to_string env file_name remote_path encoding st.
Proof.
  intros env st rp fn n cols enc.
  assert (E : remote_file_path (rp ++ slashes n) fn = remote_file_path rp fn).
  { unfold remote_file_path. rewrite rstrip_slash_app_slashes. reflexivity. }
  split; [exact E|].
  unfold get_csv_file, get_csv_file_body, get_xml_file_to_string,
    get_xml_file_to_string_body, file_to_string, file_to_string_body.
  rewrite E. repeat split.
Qed.

(** X17.  A directory made of slashes only, the empty directory included,
    stands for the root: the path requested is ["/"] followed by the file
    name.  In particular an empty [remote_path] does not mean the current
    directory. *)
Theorem remote_file_path_of_slashes_is_root :
  forall (file_name : string) (n : nat),
    remote_file_path (slashes n) file_name = String "/" file_name /\
    remote_file_path "" file_name = String "/" file_name /\
    remote_file_path "." file_name = String "." (String "/" file_name).
Proof.
  intros fn n. unfold remote_file_path.
  rewrite rstrip_slash_slashes. repeat split.
Qed.

(** ** The glob filter, again *)

Lemma matches_star_unfold (p : list Glob.tok) (s : list ascii) :
  Glob.matches (Glob.TStar :: p) s =
  Glob.matches p s ||
  match s with
  | [] => false
  | _ :: s' => Glob.matches (Glob.TStar :: p) s'
  end.
Proof. destruct s; reflexivity. Qed.

Lemma matches_star_iff (p : list Glob.tok) (s : list ascii) :
  Glob.matches (Glob.TStar :: p) s = true <->
  exists pre suf, s = pre ++ suf /\ Glob.matches p suf = true.
Proof.
  induction s as [|c s IH]; rewrite matches_star_unfold.
  - rewrite orb_false_r. split.
    + intros H. exists [], []. auto.
    + intros (pre & suf & E & H).
      symmetry in E. apply app_eq_nil in E. destruct E; subst. exact H.
  - rewrite orb_true_iff, IH. split.
    + intros [H|(pre & suf & E & H)].
      * exists [], (c :: s). auto.
      * exists (c :: pre), suf. subst. auto.
    + intros (pre & suf & E & H). destruct pre as [|d pre].
      * left. simpl in E. subst. exact H.
      * right. simpl in E. inversion E; subst. exists pre, suf. auto.
Qed.

Lemma matches_literals (cs s : list ascii) :
  Glob.matches (map Glob.TLit cs) s = true <-> s = cs.
Proof.
  revert s. induction cs as [|c cs IH]; intros s; simpl.
  - destruct s; split; congruence.
  - destruct s as [|d s]; [split; discriminate|].
    rewrite andb_true_iff, IH, Ascii.eqb_eq. split.
    + intros [-> ->]. reflexivity.
    + intros H. inversion H. auto.
Qed.

Lemma translate_plain (pat : string) (star : bool) :
  plain pat = true ->
  Glob.translate star 0 (list_ascii_of_string pat)
  = map Glob.TLit (list_ascii_of_string pat).
Proof.
  revert star. induction pat as [|c pat IH]; intros star H; simpl in *.
  - reflexivity.
  - apply andb_true_iff in H. destruct H as [Hc Hp].
    unfold is_wildcard in Hc. apply negb_true_iff in Hc.
    apply orb_false_iff in Hc. destruct Hc as [Hc H3].
    apply orb_false_iff in Hc. destruct Hc as [H1 H2].
    rewrite H1, H2, H3. rewrite (IH false Hp). reflexivity.
Qed.

Lemma list_ascii_of_string_app (a b : string) :
  list_ascii_of_string (a ++ b) = list_ascii_of_string a ++ list_ascii_of_string b.
Proof. induction a as [|c a IH]; simpl; [reflexivity|rewrite IH; reflexivity]. Qed.

Lemma list_ascii_of_string_inj (a b : string) :
  list_ascii_of_string a = list_ascii_of_string b -> a = b.
Proof.
  intros H. rewrite <- (string_of_list_ascii_of_string a),
                    <- (string_of_list_ascii_of_string b), H.
  reflexivity.
Qed.

Lemma fnmatch_star_all (name : string) : fnmatch name "*" = true.
Proof.
  unfold fnmatch. cbn [list_ascii_of_string Glob.translate Ascii.eqb Bool.eqb].
  apply matches_star_iff. exists (list_ascii_of_string name), [].
  rewrite app_nil_r. auto.
Qed.

(** X18.  With the default pattern ["*"] nothing is filtered out: once
    [connect], the listing and the teardown succeed, [get_files] returns
    the remote listing as it is. *)
Theorem get_files_default_pattern_returns_listing :
  forall (env : Env) (remote_path : string) (st st1 : State) (h : handle)
         (all_files : list string),
    connect env st = (Ok tt, st1) ->
    _sftp (self st1) = Some h ->
    sftp_listdir env (hist st1) h remote_path = Ok all_files ->
    fst (close env (mkState (self st1) (hist st1 ++ [EvListdir h remote_path])))
    = Ok tt ->
    fst (get_files env remote_path "*" st) = Ok all_files.
Proof.
  intros env rp st st1 h names Hc Hs Hl Hclose.
  destruct (connect_ok_handles env st st1 Hc) as (c & h' & new & Hcl & Hs' & _).
  rewrite Hs in Hs'. inversion Hs'; subst h'.
  rewrite (get_files_eq env rp "*" st st1 h c Hc Hs Hcl).
  rewrite close_eq in Hclose. cbn [self hist] in Hclose.
  rewrite Hs, Hcl in Hclose.
  destruct (sftp_close env _ h) as [[]|e1]; [|discriminate].
  cbn [fst] in Hclose |- *. rewrite <- app_assoc in Hclose. cbn [app] in Hclose.
  rewrite Hclose, Hl. f_equal.
  unfold glob_filter. apply forallb_filter_id.
  apply forallb_forall. intros f _. apply fnmatch_star_all.
Qed.

Lemma get_files_default_pattern_returns_listing_witness :
  fst (get_files (Sim.env_of (Sim.healthy ["b.txt"; "a.csv"; "b.txt"] ""))
         "." "*" Sim.reader_password)
  = Ok ["b.txt"; "a.csv"; "b.txt"].
Proof.
  apply (get_files_default_pattern_returns_listing
           (Sim.env_of (Sim.healthy ["b.txt"; "a.csv"; "b.txt"] "")) "."
           Sim.reader_password Sim.reader_open 3); reflexivity.
Defined.

(** X19.  A pattern without any of [*], [?] and [[] selects exactly the
    names equal to it, and a pattern made of ["*"] and such a text selects
    exactly the names that end with the text; so ["*.csv"] selects the
    names ending in [".csv"], upper and lower case being different. *)
Theorem fnmatch_plain_and_suffix :
  forall name pat : string,
    plain pat = true ->
    (fnmatch name pat = true <-> name = pat) /\
    (fnmatch name (String "*" pat) = true <->
     exists pre, name = (pre ++ pat)%string).
Proof.
  intros name pat Hp. unfold fnmatch. split.
  - rewrite (translate_plain pat false Hp), matches_literals. split.
    + apply list_ascii_of_string_inj.
    + intros ->. reflexivity.
  - change (Glob.translate false 0 (list_ascii_of_string (String "*" pat)))
      with (Glob.TStar :: Glob.translate true 0 (list_ascii_of_string pat)).
    rewrite (translate_plain pat true Hp), matches_star_iff. split.
    + intros (pre & suf & E & H). apply matches_literals in H. subst suf.
      exists (string_of_list_ascii pre).
      apply list_ascii_of_string_inj.
      rewrite list_ascii_of_string_app, list_ascii_of_string_of_list_ascii.
      exact E.
    + intros (pre & ->).
      exists (list_ascii_of_string pre), (list_ascii_of_string pat). split.
      * apply list_ascii_of_string_app.
      * apply matches_literals. reflexivity.
Qed.

Lemma fnmatch_plain_and_suffix_witness :
  fnmatch "orders.csv" "*.csv" = true <->
  exists pre, "orders.csv" = (pre ++ ".csv")%string.
Proof.
  apply (proj2 (fnmatch_plain_and_suffix "orders.csv" ".csv" eq_refl)).
Defined.

(** X20.  The pattern plays no part in what is asked of the server:
    whatever the pattern, [get_files] makes the same calls and leaves the
    same state.  The only directory it ever lists is [remote_path]; the
    names are filtered on the client. *)
Theorem get_files_pattern_is_local :
  forall (env : Env) (remote_path pattern1 pattern2 : string) (st : State),
    snd (get_files env remote_path pattern1 st)
    = snd (get_files env remote_path pattern2 st) /\
    forall h p,
      In (EvListdir h p) (new_events (get_files env remote_path pattern1) st) ->
      p = remote_path.
Proof.
  intros env rp p1 p2 st. split.
  - destruct (connect env st) as [[[]|e] st1] eqn:Hc.
    + destruct (connect_ok_handles env st st1 Hc) as (c & h & new & Hcl & Hs & _).
      rewrite !(get_files_eq env rp _ st st1 h c Hc Hs Hcl).
      destruct (sftp_close env _ h) as [[]|e1]; reflexivity.
    + unfold get_files, bind. rewrite Hc. reflexivity.
  - intros h p Hin. unfold new_events in Hin.
    destruct (connect env st) as [[[]|e] st1] eqn:Hc.
    + destruct (connect_ok_state env st st1 Hc) as (sf & new & Hself & _ & Hh & _).
      assert (Hs : _sftp (self st1) = Some sf) by (rewrite Hself; reflexivity).
      assert (Hcl : _client (self st1) = Some (length (hist st)))
        by (rewrite Hself; reflexivity).
      rewrite (get_files_eq env rp p1 st st1 sf _ Hc Hs Hcl) in Hin.
      assert (Hnew : ~ In (EvListdir h p) new).
      { clear Hin. revert Hc Hh. destruct st as [[hn un pf pw pt cl sf0] hs].
        connect_cases env (mkState (mkSFTPReader hn un pf pw pt cl sf0) hs);
          intros H; try discriminate; inversion H; subst; clear H;
          cbn [hist]; intros Hh; apply app_inv_head in Hh; subst new;
          simpl; intuition discriminate. }
      rewrite Hh in Hin.
      destruct (sftp_close env _ sf) as [[]|e1]; cbn [snd hist] in Hin;
        rewrite <- ?app_assoc in Hin; rewrite skipn_app_exact in Hin;
        apply in_app_or in Hin; destruct Hin as [Hin|Hin]; try contradiction;
        simpl in Hin;
        repeat (destruct Hin as [Hin|Hin];
                [try discriminate; inversion Hin; reflexivity|]);
        contradiction.
    + assert (Hg : get_files env rp p1 st = (Raise e, st1)).
      { unfold get_files, bind. rewrite Hc. reflexivity. }
      rewrite Hg in Hin. cbn [snd] in Hin. exfalso.
      revert Hc Hin. destruct st as [[hn un pf pw pt cl sf0] hs].
      connect_cases env (mkState (mkSFTPReader hn un pf pw pt cl sf0) hs);
        intros H; try discriminate; inversion H; subst; clear H;
        cbn [hist]; rewrite ?skipn_app_exact, ?skipn_app_nil;
        simpl; intuition discriminate.
Qed.

Lemma get_files_pattern_is_local_witness :
  snd (get_files (Sim.env_of (Sim.healthy ["a.csv"] "")) "/data" "*.csv"
         Sim.reader_password)
  = snd (get_files (Sim.env_of (Sim.healthy ["a.csv"] "")) "/data" "*"
           Sim.reader_password) /\
  "/data" = "/data".
Proof.
  split.
  - apply (proj1 (get_files_pattern_is_local
                    (Sim.env_of (Sim.healthy ["a.csv"] "")) "/data" "*.csv" "*"
                    Sim.reader_password)).
  - apply (proj2 (get_files_pattern_is_local
                    (Sim.env_of (Sim.healthy ["a.csv"] "")) "/data" "*.csv" "*"
                    Sim.reader_password) 3 "/data").
    vm_compute. do 4 right. left. reflexivity.
Defined.

(** X21.  Credentials that are empty strings count as missing: when each
    of the password and the key file is [None] or empty, [connect] raises
    the [ValueError] and calls nothing. *)
Theorem connect_empty_credentials_raise :
  forall (env : Env) (st : State),
    truthy_str (password (self st)) = false ->
    truthy_str (pem_file (self st)) = false ->
    connect env st
    = (Raise (ValueError "Either password or pem_file must be provided"), st) /\
    (forall s, password (self st) = Some s -> s = EmptyString) /\
    (forall s, pem_file (self st) = Some s -> s = EmptyString).
Proof.
  intros env st Hp Hk. split; [|split].
  - unfold connect. unfold_py. rewrite Hp, Hk. reflexivity.
  - intros s Hs. rewrite Hs in Hp. simpl in Hp.
    apply negb_false_iff in Hp. apply String.eqb_eq in Hp. exact Hp.
  - intros s Hs. rewrite Hs in Hk. simpl in Hk.
    apply negb_false_iff in Hk. apply String.eqb_eq in Hk. exact Hk.
Qed.

Lemma connect_empty_credentials_raise_witness :
  connect (Sim.env_of (Sim.healthy [] ""))
    (mkState (new_reader "host" "user" (Some "") (Some "") 22) [])
  = (Raise (ValueError "Either password or pem_file must be provided"),
     mkState (new_reader "host" "user" (Some "") (Some "") 22) []).
Proof.
  apply (connect_empty_credentials_raise (Sim.env_of (Sim.healthy [] ""))
           (mkState (new_reader "host" "user" (Some "") (Some "") 22) []));
    reflexivity.
Defined.

